(** * Code-reference extraction of bionic ([bionic/code_references.py])

    A shallow embedding of [get_code_context] and [get_referenced_objects],
    and the properties of the reference walker that the specification
    states about them.

    Python values are kept abstract where the walker does not look inside
    them; dictionaries are finite maps that live in a store of dict objects,
    because the walker mutates [context.varnames] in place and its caller
    sees the mutation afterwards. *)

From Stdlib Require Import ZArith String Ascii List.
From stdpp Require Import base decidable option functions gmap strings list fin_maps pretty.

#[local] Open Scope string_scope.
#[local] Open Scope list_scope.

(** ** Python values and exceptions *)

(** The values the walker can hold in [tos].  [VNone] is Python's [None]:
    the source uses it for the empty top of stack.  [VStr] stands for every
    instance of [str]; [VObj] is any other object (module, function, class,
    instance, container, ...), identified by its address. *)
Inductive pyval : Type :=
| VNone
| VBool (b : bool)
| VInt (z : Z)
| VStr (s : string)
| VObj (o : nat).

#[global] Instance pyval_eq_dec : EqDecision pyval.
Proof. solve_decision. Defined.

(** Instances of [Exception].  [ModuleNotFoundError] is a subclass of
    [ImportError].  [CodeVersioningError message cause] is the error of
    [bionic.exception] raised with [raise ... from cause].  Conditions that
    derive from [BaseException] only (an interrupt, an interpreter exit) are
    not modelled. *)
Inductive exn : Type :=
| KeyError (key : string)
| AttributeError (msg : string)
| ImportError (msg : string)
| ModuleNotFoundError (msg : string)
| TypeError (msg : string)
| ValueError (msg : string)
| AssertionError
| OtherException (cls msg : string)
| CodeVersioningError (message : string) (cause : exn).

Definition is_ImportError (e : exn) : bool :=
  match e with
  | ImportError _ | ModuleNotFoundError _ => true
  | _ => false
  end.

Definition is_CodeVersioningError (e : exn) : bool :=
  match e with
  | CodeVersioningError _ _ => true
  | _ => false
  end.

(** A computation that returns a value or raises. *)
Inductive result (A : Type) : Type :=
| Ok (a : A)
| Raise (e : exn).
Arguments Ok {A} a.
Arguments Raise {A} e.

#[global] Instance result_bind : MBind result := λ A B f m,
  match m with
  | Ok a => f a
  | Raise e => Raise e
  end.

#[global] Instance result_fmap : FMap result := λ A B f m,
  match m with
  | Ok a => Ok (f a)
  | Raise e => Raise e
  end.

(** ** The parts of the runtime the module calls into

    [getattr] and [importlib.import_module] are builtins whose result
    depends on the objects and modules of the running program, and the truth
    value of an object depends on its class; [oneline] is
    [bionic.utils.misc.oneline].  They are parameters of the model.  They
    are taken to leave the three dictionaries of the context alone. *)
Record Runtime : Type := {
  getattr : pyval → string → result pyval;
  import_module : string → result pyval;
  obj_bool : nat → result bool;
  oneline : string → string
}.

(** [bool(v)], as the conditions [... and tos] evaluate it. *)
Definition truthy (rt : Runtime) (v : pyval) : result bool :=
  match v with
  | VNone => Ok false
  | VBool b => Ok b
  | VInt z => Ok (negb (z =? 0)%Z)
  | VStr s => Ok (negb (String.eqb s ""))
  | VObj o => obj_bool rt o
  end.

(** [v is None] *)
Definition is_None (v : pyval) : bool :=
  match v with
  | VNone => true
  | _ => false
  end.

(** ** Dictionaries and the store of dict objects *)

Abbreviation pydict := (gmap string pyval).

(** [d[k]] *)
Definition getitem (d : pydict) (k : string) : result pyval :=
  match d !! k with
  | Some v => Ok v
  | None => Raise (KeyError k)
  end.

(** [del d[k]] *)
Definition delitem (d : pydict) (k : string) : result pydict :=
  match d !! k with
  | Some _ => Ok (delete k d)
  | None => Raise (KeyError k)
  end.

(** [k in d] *)
Definition contains (d : pydict) (k : string) : bool :=
  bool_decide (is_Some (d !! k)).

Definition loc : Type := nat.

(** The dict objects of the program: [dicts h l] is the present content of
    the dict at address [l]; addresses below [next_loc h] are in use. *)
Record Heap : Type := {
  next_loc : loc;
  dicts : loc → pydict
}.

(** A new dict object with content [d]. *)
Definition alloc (d : pydict) (h : Heap) : loc * Heap :=
  (next_loc h,
   {| next_loc := S (next_loc h); dicts := <[next_loc h := d]> (dicts h) |}).

(** In-place update of the dict at [l]. *)
Definition store (l : loc) (d : pydict) (h : Heap) : Heap :=
  {| next_loc := next_loc h; dicts := <[l := d]> (dicts h) |}.

(** ** Code objects, functions, contexts *)

(** One element of [dis.get_instructions(code)].  [argval] is read by the
    walker only for instructions that carry a name (of a global, a cell, a
    local, an attribute or a module), where it is a [str]. *)
Record Instruction : Type := {
  opname : string;
  argval : string;
  starts_line : option Z
}.

(** A code object; [co_instructions] is [dis.get_instructions(code)]. *)
Record Code : Type := {
  co_filename : string;
  co_name : string;
  co_cellvars : list string;
  co_freevars : list string;
  co_instructions : list Instruction
}.

(** What [get_code_context] reads of its argument.  [__closure__] is [None]
    or a tuple of cells; a cell is empty or holds a value.  [__self__] is
    [Some s] exactly when [inspect.ismethod(func)] holds. *)
Record Function : Type := {
  __code__ : Code;
  __closure__ : option (list (option pyval));
  __globals__ : loc;
  __self__ : option pyval
}.

(** [CodeContext]: three references to dict objects. *)
Record CodeContext : Type := {
  globals : loc;
  cells : loc;
  varnames : loc
}.

(** [cell.cell_contents] *)
Definition cell_contents (c : option pyval) : result pyval :=
  match c with
  | Some v => Ok v
  | None => Raise (ValueError "Cell is empty")
  end.

(** [for freevar, cell in zip(co_freevars, closure): cells[freevar] =
    cell.cell_contents] *)
Fixpoint bind_freevars (fvs : list string) (cs : list (option pyval))
    (d : pydict) : result pydict :=
  match fvs, cs with
  | fv :: fvs', c :: cs' =>
      v ← cell_contents c;
      bind_freevars fvs' cs' (<[fv := v]> d)
  | _, _ => Ok d
  end.

(** [get_code_context(func)].  The cell variables are bound to their own
    names; under [if code.co_freevars:] the [assert] compares the two
    lengths (where [len(None)] is a [TypeError]) and the free variables are
    bound to the contents of their cells; [cells] and [varnames] are new
    dicts, [globals] is the dict of the function's module. *)
Definition get_code_context (func : Function) (h : Heap)
    : result (CodeContext * Heap) :=
  let code := __code__ func in
  let cells0 : pydict :=
    foldl (λ d var, <[var := VStr var]> d) ∅ (co_cellvars code) in
  cells1 ←
    match co_freevars code with
    | [] => Ok cells0
    | _ :: _ =>
        match __closure__ func with
        | None => Raise (TypeError "object of type 'NoneType' has no len()")
        | Some cs =>
            if bool_decide (length (co_freevars code) = length cs) then
              bind_freevars (co_freevars code) cs cells0
            else Raise AssertionError
        end
    end;
  let varnames0 : pydict :=
    match __self__ func with
    | Some s => {["self" := s]}
    | None => ∅
    end in
  let '(lc, h1) := alloc cells1 h in
  let '(lv, h2) := alloc varnames0 h1 in
  Ok ({| globals := __globals__ func; cells := lc; varnames := lv |}, h2).

(** ** The reference walker *)

(** The local variables of [get_referenced_objects]. *)
Record Frame : Type := {
  tos : pyval;
  lineno : option Z;
  refs : list pyval
}.

Definition init_frame : Frame := {| tos := VNone; lineno := None; refs := [] |}.

Definition with_tos (t : pyval) (fr : Frame) : Frame :=
  {| tos := t; lineno := lineno fr; refs := refs fr |}.

Definition append_ref (v : pyval) (fr : Frame) : Frame :=
  {| tos := tos fr; lineno := lineno fr; refs := refs fr ++ [v] |}.

(** The inner function [set_tos]. *)
Definition set_tos (t : pyval) (fr : Frame) : Frame :=
  with_tos t (if is_None (tos fr) then fr else append_ref (tos fr) fr).

(** The final [else] of the instruction dispatch. *)
Definition flush_tos (fr : Frame) : Frame :=
  if is_None (tos fr) then fr else with_tos VNone (append_ref (tos fr) fr).

(** [if op.starts_line is not None: lineno = op.starts_line] *)
Definition update_lineno (op : Instruction) (fr : Frame) : Frame :=
  match starts_line op with
  | Some l => {| tos := tos fr; lineno := Some l; refs := refs fr |}
  | None => fr
  end.

(** [b and tos], taken as a condition: [tos] is only tested when [b]. *)
Definition and_tos (rt : Runtime) (b : bool) (fr : Frame) : result bool :=
  if b then truthy rt (tos fr) else Ok false.

(** [op.opname in names] *)
Definition has_opname (op : Instruction) (names : list string) : bool :=
  bool_decide (opname op ∈ names).

(** [op.opname == name] *)
Definition is_opname (op : Instruction) (name : string) : bool :=
  bool_decide (opname op = name).

(** The [if]/[elif] chain of the loop body, after the line number has been
    recorded.  A [Raise] is an exception that reaches the handler
    [except Exception]. *)
Definition dispatch (rt : Runtime) (ctx : CodeContext) (op : Instruction)
    (h : Heap) (fr : Frame) : result (Frame * Heap) :=
  if has_opname op ["LOAD_GLOBAL"; "LOAD_NAME"] then
    if contains (dicts h (globals ctx)) (argval op) then
      v ← getitem (dicts h (globals ctx)) (argval op);
      Ok (set_tos v fr, h)
    else Ok (set_tos (VStr (argval op)) fr, h)
  else if has_opname op ["LOAD_DEREF"; "LOAD_CLOSURE"] then
    v ← getitem (dicts h (cells ctx)) (argval op);
    Ok (set_tos v fr, h)
  else if is_opname op "IMPORT_NAME" then
    match import_module rt (argval op) with
    | Ok m => Ok (set_tos m fr, h)
    | Raise e =>
        if is_ImportError e then Ok (set_tos (VStr (argval op)) fr, h)
        else Raise e
    end
  else if has_opname op ["LOAD_METHOD"; "LOAD_ATTR"; "IMPORT_FROM"] then
    match tos fr with
    | VNone => Ok (append_ref (VStr (argval op)) fr, h)
    | VStr s => Ok (with_tos (VStr (s +:+ "." +:+ argval op)) fr, h)
    | o => v ← getattr rt o (argval op); Ok (with_tos v fr, h)
    end
  else
    del ← and_tos rt (is_opname op "DELETE_FAST") fr;
    if del : bool then
      d ← delitem (dicts h (varnames ctx)) (argval op);
      Ok (with_tos VNone fr, store (varnames ctx) d h)
    else
      sto ← and_tos rt (is_opname op "STORE_FAST") fr;
      if sto : bool then
        Ok (with_tos VNone fr,
            store (varnames ctx)
              (<[argval op := tos fr]> (dicts h (varnames ctx))) h)
      else if is_opname op "LOAD_FAST"
              && contains (dicts h (varnames ctx)) (argval op) then
        v ← getitem (dicts h (varnames ctx)) (argval op);
        Ok (set_tos v fr, h)
      else Ok (flush_tos fr, h).

(** [str(lineno)] inside the f-string. *)
Definition str_lineno (ln : option Z) : string :=
  match ln with
  | Some l => pretty l
  | None => "None"
  end.

Definition nl : string := String (ascii_of_nat 10) "".
Definition indent : string := "            ".

(** The f-string handed to [oneline]; in an f-string the dollar sign is an
    ordinary character. *)
Definition message_text (code : Code) (ln : option Z) : string :=
  nl +:+ indent +:+ "Bionic found a code reference in file $"
     +:+ co_filename code +:+ nl
  +:+ indent +:+ "at line $" +:+ str_lineno ln
     +:+ " that it cannot hash when hashing" +:+ nl
  +:+ indent +:+ "$" +:+ co_name code
     +:+ ".This should be impossible and is most" +:+ nl
  +:+ indent +:+ "likely a bug in Bionic. Please raise a new issue at" +:+ nl
  +:+ indent +:+ "https://github.com/square/bionic/issues to let us know." +:+ nl
  +:+ indent.

(** The call of the class [CodeVersioningError].  The class is declared in
    [bionic/exception.py] with [__init__(self, message, bad_descriptor)]:
    both arguments are required.  [bad_descriptor] is [None] here when the
    call passes no second argument, and the call then raises the
    [TypeError] of a missing argument instead of returning an instance.  An
    instance is returned without its cause, which [raise ... from] sets. *)
Definition new_CodeVersioningError (message : string)
    (bad_descriptor : option pyval) : result (exn → exn) :=
  match bad_descriptor with
  | Some _ => Ok (CodeVersioningError message)
  | None =>
      Raise (TypeError
        "__init__() missing 1 required positional argument: 'bad_descriptor'")
  end.

(** The [except Exception as e] handler: the message is built, then
    [raise CodeVersioningError(message) from e] evaluates the call, with the
    message as its only argument.  When the call itself raises, that
    exception is the one that leaves the handler, and no [from e] takes
    place. *)
Definition wrap_error (rt : Runtime) (code : Code) (ln : option Z) (e : exn) : exn :=
  let message := oneline rt (message_text code ln) in
  match new_CodeVersioningError message None with
  | Ok instance => instance e
  | Raise e' => e'
  end.

(** The [for] loop over the instructions.  The store is returned in either
    case: what earlier instructions wrote to [context.varnames] stays
    written when a later one raises. *)
Fixpoint loop (rt : Runtime) (code : Code) (ctx : CodeContext)
    (ops : list Instruction) (h : Heap) (fr : Frame) : result Frame * Heap :=
  match ops with
  | [] => (Ok fr, h)
  | op :: rest =>
      let fr1 := update_lineno op fr in
      match dispatch rt ctx op h fr1 with
      | Ok (fr2, h2) => loop rt code ctx rest h2 fr2
      | Raise e => (Raise (wrap_error rt code (lineno fr1) e), h)
      end
  end.

(** [get_referenced_objects(code, context)]: the value returned or the
    exception raised, and the store afterwards. *)
Definition get_referenced_objects (rt : Runtime) (code : Code)
    (ctx : CodeContext) (h : Heap) : result (list pyval) * Heap :=
  let '(r, h') := loop rt code ctx (co_instructions code) h init_frame in
  (refs <$> r, h').

(** The helper [get_references] of [tests/test_code_references.py]: build
    the context of a function, then walk its code. *)
Definition get_references (rt : Runtime) (func : Function) (h : Heap)
    : result (list pyval) * Heap :=
  match get_code_context func h with
  | Ok (ctx, h1) => get_referenced_objects rt (__code__ func) ctx h1
  | Raise e => (Raise e, h)
  end.

(** ** Vocabulary of the statements *)

(** The instruction names the dispatch has a rule for; every other
    instruction reaches the final [else]. *)
Definition handled_opnames : list string :=
  ["LOAD_GLOBAL"; "LOAD_NAME"; "LOAD_DEREF"; "LOAD_CLOSURE"; "IMPORT_NAME";
   "LOAD_METHOD"; "LOAD_ATTR"; "IMPORT_FROM";
   "DELETE_FAST"; "STORE_FAST"; "LOAD_FAST"].

(** [sub in s] for strings. *)
Definition includes (s sub : string) : Prop :=
  ∃ pre post, s = pre +:+ sub +:+ post.

(** The line the handler reports once the instructions [ops] have been
    entered: the last [starts_line] among them that is not [None]. *)
Definition best_known_line (ops : list Instruction) : option Z :=
  foldl (λ ln op, match starts_line op with Some l => Some l | None => ln end)
        None ops.

(** The instruction [op] writes the local [name]: it is a [STORE_FAST] or a
    [DELETE_FAST] of that name. *)
Definition stores_name (name : string) (op : Instruction) : bool :=
  is_opname op "STORE_FAST" && bool_decide (argval op = name).

Definition deletes_name (name : string) (op : Instruction) : bool :=
  is_opname op "DELETE_FAST" && bool_decide (argval op = name).

(** The instruction names whose rule does not move a value held in [tos]
    to [refs]: an attribute-chain instruction works on it in place, a store
    or a delete of a local takes it away. *)
Definition keeping_opnames : list string :=
  ["LOAD_METHOD"; "LOAD_ATTR"; "IMPORT_FROM"; "DELETE_FAST"; "STORE_FAST"].

(** The instruction names whose rule can leave a value in [tos]: the
    loads, the import and the attribute-chain instructions. *)
Definition load_opnames : list string :=
  ["LOAD_GLOBAL"; "LOAD_NAME"; "LOAD_DEREF"; "LOAD_CLOSURE"; "IMPORT_NAME";
   "LOAD_METHOD"; "LOAD_ATTR"; "IMPORT_FROM"; "LOAD_FAST"].

Definition attribute_opnames : list string :=
  ["LOAD_METHOD"; "LOAD_ATTR"; "IMPORT_FROM"].

(** [base + "." + n1 + "." + n2 + ...] for the names of the instructions
    [ops]. *)
Definition dotted_name (base : string) (ops : list Instruction) : string :=
  foldl (λ s op, s +:+ "." +:+ argval op) base ops.

(** Neither [None] nor a [str]: the values on which an attribute-chain
    instruction calls [getattr]. *)
Definition is_object (v : pyval) : bool :=
  match v with
  | VNone | VStr _ => false
  | _ => true
  end.

(** [getattr(... getattr(getattr(o, n1), n2) ..., nk)] for the names of
    [ops], as long as every value on the way is an object and every lookup
    succeeds. *)
Fixpoint resolve_chain (rt : Runtime) (o : pyval) (ops : list Instruction)
    : option pyval :=
  match ops with
  | [] => Some o
  | op :: rest =>
      if is_object o then
        match getattr rt o (argval op) with
        | Ok v => resolve_chain rt v rest
        | Raise _ => None
        end
      else None
  end.

(** The dict [cells] as [get_code_context] fills it, lines 57 to 65 of the
    source on their own. *)
Definition build_cells (func : Function) : result pydict :=
  let code := __code__ func in
  let cells0 : pydict :=
    foldl (λ d var, <[var := VStr var]> d) ∅ (co_cellvars code) in
  match co_freevars code with
  | [] => Ok cells0
  | _ :: _ =>
      match __closure__ func with
      | None => Raise (TypeError "object of type 'NoneType' has no len()")
      | Some cs =>
          if bool_decide (length (co_freevars code) = length cs) then
            bind_freevars (co_freevars code) cs cells0
          else Raise AssertionError
      end
  end.

(** The dict [varnames] as [get_code_context] seeds it. *)
Definition seed_varnames (func : Function) : pydict :=
  match __self__ func with
  | Some s => {["self" := s]}
  | None => ∅
  end.

(** ** Proof steps used more than once *)

(** Every match of the dispatch, one case each. *)
Ltac dispatch_cases H :=
  unfold dispatch, and_tos, getitem, delitem, mbind, result_bind in H;
  repeat (case_match; simplify_eq/=).

(** An instruction name is one of [handled_opnames]. *)
Ltac handled_name :=
  unfold handled_opnames; rewrite !elem_of_cons; tauto.

(** A list of instruction names is part of [handled_opnames]. *)
Ltac handled_sublist :=
  intros x; unfold handled_opnames; rewrite !elem_of_cons, !elem_of_nil; tauto.

(** ** Sample data *)

Module Sample.

(** A runtime in which no attribute resolves and no module is found. *)
Definition rt : Runtime :=
  {| getattr := λ _ n, Raise (AttributeError n);
     import_module := λ n, Raise (ModuleNotFoundError n);
     obj_bool := λ _, Ok true;
     oneline := λ s, s |}.

Definition ins (name arg : string) : Instruction :=
  {| opname := name; argval := arg; starts_line := None |}.

Definition ins_at (line : Z) (name arg : string) : Instruction :=
  {| opname := name; argval := arg; starts_line := Some line |}.

Definition code_of (ops : list Instruction) : Code :=
  {| co_filename := "flow.py"; co_name := "x";
     co_cellvars := []; co_freevars := []; co_instructions := ops |}.

(** Module globals [global_val = 42] and [zero = 0] at address 0, empty
    [cells] and [varnames] at addresses 1 and 2. *)
Definition heap : Heap :=
  {| next_loc := 3;
     dicts := <[0 := {["global_val" := VInt 42; "zero" := VInt 0]}]> (λ _, ∅) |}.

Definition ctx : CodeContext := {| globals := 0; cells := 1; varnames := 2 |}.

Definition frame_of (t : pyval) : Frame :=
  {| tos := t; lineno := None; refs := [] |}.

(** [def x(): return global_val] *)
Definition return_global : Code :=
  code_of [ins_at 35 "LOAD_GLOBAL" "global_val"; ins "RETURN_VALUE" ""].

(** [def x(): return a.b.c] *)
Definition return_chain : Code :=
  code_of [ins_at 2 "LOAD_GLOBAL" "a"; ins "LOAD_ATTR" "b";
           ins "LOAD_ATTR" "c"; ins "RETURN_VALUE" ""].

(** [def x(): v = a.b.c] *)
Definition store_chain : Code :=
  code_of [ins_at 2 "LOAD_GLOBAL" "a"; ins "LOAD_ATTR" "b";
           ins "LOAD_ATTR" "c"; ins "STORE_FAST" "v";
           ins "LOAD_CONST" "None"; ins "RETURN_VALUE" ""].

(** [def x(): return f(a.b.c, g)] *)
Definition call_with_chain : Code :=
  code_of [ins_at 2 "LOAD_GLOBAL" "f"; ins "LOAD_GLOBAL" "a";
           ins "LOAD_ATTR" "b"; ins "LOAD_ATTR" "c"; ins "LOAD_GLOBAL" "g";
           ins "CALL_FUNCTION" "2"; ins "RETURN_VALUE" ""].

(** [def y(my_class): my_class.log_val()] *)
Definition call_method : Code :=
  code_of [ins_at 131 "LOAD_FAST" "my_class"; ins "LOAD_METHOD" "log_val";
           ins "CALL_METHOD" "0"; ins "POP_TOP" "";
           ins "LOAD_CONST" "None"; ins "RETURN_VALUE" ""].

(** A read of a closure variable that [cells] does not have. *)
Definition bad_deref : Code :=
  code_of [ins_at 7 "LOAD_GLOBAL" "global_val"; ins "STORE_FAST" "v";
           ins "LOAD_DEREF" "missing"; ins "RETURN_VALUE" ""].

(** A function object with one free variable and no cell for it. *)
Definition short_closure : Function :=
  {| __code__ := {| co_filename := "flow.py"; co_name := "x";
                    co_cellvars := []; co_freevars := ["free_val"];
                    co_instructions := [] |};
     __closure__ := Some [];
     __globals__ := 0;
     __self__ := None |}.

(** A function object with no free variable and a cell all the same. *)
Definition long_closure : Function :=
  {| __code__ := {| co_filename := "flow.py"; co_name := "x";
                    co_cellvars := []; co_freevars := [];
                    co_instructions := [] |};
     __closure__ := Some [Some (VStr "42")];
     __globals__ := 0;
     __self__ := None |}.

(** A runtime that knows the module [multiprocessing] (object 10), its
    submodule [managers] (11) with the class [SyncManager] (12) and its
    method [start] (13), and the module [pytest] (20). *)
Definition rt_modules : Runtime :=
  {| getattr := λ o n,
       match o, n with
       | VObj 10, "managers" => Ok (VObj 11)
       | VObj 11, "SyncManager" => Ok (VObj 12)
       | VObj 12, "start" => Ok (VObj 13)
       | _, _ => Raise (AttributeError n)
       end;
     import_module := λ n,
       match n with
       | "multiprocessing" => Ok (VObj 10)
       | "multiprocessing.managers" => Ok (VObj 11)
       | "pytest" => Ok (VObj 20)
       | _ => Raise (ModuleNotFoundError n)
       end;
     obj_bool := λ _, Ok true;
     oneline := λ s, s |}.

Definition function_of (cellvars freevars : list string)
    (closure : option (list (option pyval))) (ops : list Instruction)
    : Function :=
  {| __code__ := {| co_filename := "test_code_references.py"; co_name := "x";
                    co_cellvars := cellvars; co_freevars := freevars;
                    co_instructions := ops |};
     __closure__ := closure;
     __globals__ := 0;
     __self__ := None |}.

(** [free_val = "42"] outside, [def x(): return free_val] *)
Definition free_reference : Function :=
  function_of [] ["free_val"] (Some [Some (VStr "42")])
    [ins_at 44 "LOAD_DEREF" "free_val"; ins "RETURN_VALUE" ""].

(** [def x(): cell_val = "42"; def y(): return cell_val] *)
Definition cell_reference : Function :=
  function_of ["cell_val"] [] None
    [ins_at 51 "LOAD_CONST" "42"; ins "STORE_DEREF" "cell_val";
     ins_at 53 "LOAD_CLOSURE" "cell_val"; ins "BUILD_TUPLE" "1";
     ins "LOAD_CONST" "code"; ins "LOAD_CONST" "name";
     ins "MAKE_FUNCTION" "8"; ins "STORE_FAST" "y";
     ins "LOAD_CONST" "None"; ins "RETURN_VALUE" ""].

(** [def x(): import pytest; return pytest] *)
Definition import_reference : Function :=
  function_of [] [] None
    [ins_at 61 "LOAD_CONST" "0"; ins "LOAD_CONST" "None";
     ins "IMPORT_NAME" "pytest"; ins "STORE_FAST" "pytest";
     ins_at 63 "LOAD_FAST" "pytest"; ins "RETURN_VALUE" ""].

(** [def x(): m = multiprocessing.managers.SyncManager; return m.start()],
    with [multiprocessing] imported in the enclosing function. *)
Definition method_reference : Function :=
  function_of [] ["multiprocessing"] (Some [Some (VObj 10)])
    [ins_at 159 "LOAD_DEREF" "multiprocessing"; ins "LOAD_ATTR" "managers";
     ins "LOAD_ATTR" "SyncManager"; ins "STORE_FAST" "m";
     ins_at 160 "LOAD_FAST" "m"; ins "LOAD_METHOD" "start";
     ins "CALL_METHOD" "0"; ins "RETURN_VALUE" ""].

(** A closure whose one cell has not been filled yet. *)
Definition empty_cell_closure : Function :=
  function_of [] ["free_val"] (Some [None])
    [ins_at 44 "LOAD_DEREF" "free_val"; ins "RETURN_VALUE" ""].

(** A method bound to the object 12: [def run(self): self.start()]. *)
Definition bound_method : Function :=
  {| __code__ := {| co_filename := "test_code_references.py";
                    co_name := "run";
                    co_cellvars := []; co_freevars := [];
                    co_instructions :=
                      [ins_at 96 "LOAD_FAST" "self"; ins "LOAD_METHOD" "start";
                       ins "CALL_METHOD" "0"; ins "POP_TOP" "";
                       ins "LOAD_CONST" "None"; ins "RETURN_VALUE" ""] |};
     __closure__ := None;
     __globals__ := 0;
     __self__ := Some (VObj 12) |}.


End Sample.

(** ** Checks against the repository's tests *)

Example test_global_references :
  (get_referenced_objects Sample.rt Sample.return_global Sample.ctx Sample.heap).1
  = Ok [VInt 42].
Proof. vm_compute. reflexivity. Qed.

Example test_method_references_parameter :
  (get_referenced_objects Sample.rt Sample.call_method Sample.ctx Sample.heap).1
  = Ok [VStr "log_val"].
Proof. vm_compute. reflexivity. Qed.

Example test_free_references :
  (get_references Sample.rt Sample.free_reference Sample.heap).1
  = Ok [VStr "42"].
Proof. vm_compute. reflexivity. Qed.

Example test_cell_references :
  (get_references Sample.rt Sample.cell_reference Sample.heap).1
  = Ok [VStr "cell_val"].
Proof. vm_compute. reflexivity. Qed.

Example test_import_references :
  (get_references Sample.rt_modules Sample.import_reference Sample.heap).1
  = Ok [VObj 20]
  ∧ (get_references Sample.rt Sample.import_reference Sample.heap).1
    = Ok [VStr "pytest"].
Proof. vm_compute. split; reflexivity. Qed.

Example test_references_with_qualified_names :
  (get_references Sample.rt_modules Sample.method_reference Sample.heap).1
  = Ok [VObj 13].
Proof. vm_compute. reflexivity. Qed.

Example bound_method_references :
  (get_references Sample.rt_modules Sample.bound_method Sample.heap).1
  = Ok [VObj 13].
Proof. vm_compute. reflexivity. Qed.

(** ** Basic facts about the dispatch *)

Lemma has_opname_eq op name names :
  opname op = name → has_opname op names = bool_decide (name ∈ names).
Proof. intros <-. reflexivity. Qed.

Lemma is_opname_eq op name name' :
  opname op = name → is_opname op name' = bool_decide (name = name').
Proof. intros <-. reflexivity. Qed.

Lemma is_opname_not_in op name (names : list string) :
  name ∈ names → opname op ∉ names → is_opname op name = false.
Proof.
  intros Hin Hnot. apply bool_decide_eq_false. intros Heq. apply Hnot.
  rewrite Heq. exact Hin.
Qed.

Lemma has_opname_sub op names names' :
  names ⊆ names' → opname op ∉ names' → has_opname op names = false.
Proof.
  intros Hsub Hnot. apply bool_decide_eq_false.
  intros Hin. apply Hnot, Hsub, Hin.
Qed.

Lemma contains_lookup (d : pydict) k :
  contains d k = bool_decide (is_Some (d !! k)).
Proof. reflexivity. Qed.

Lemma contains_true (d : pydict) k v : d !! k = Some v → contains d k = true.
Proof. intros H. apply bool_decide_eq_true. eauto. Qed.

Lemma contains_false (d : pydict) k : d !! k = None → contains d k = false.
Proof.
  intros H. apply bool_decide_eq_false. rewrite H. apply is_Some_None.
Qed.

Lemma set_tos_refs t fr : refs (set_tos t fr) = refs (flush_tos fr).
Proof. unfold set_tos, flush_tos. destruct (is_None (tos fr)); reflexivity. Qed.

Lemma set_tos_tos t fr : tos (set_tos t fr) = t.
Proof. reflexivity. Qed.

Lemma flush_tos_empty fr : tos fr = VNone → flush_tos fr = fr.
Proof. intros H. unfold flush_tos. rewrite H. reflexivity. Qed.

Lemma flush_tos_tos fr : tos (flush_tos fr) = VNone.
Proof.
  unfold flush_tos. destruct (tos fr) eqn:E; simpl; try reflexivity. exact E.
Qed.

(** What a [LOAD_FAST] does, by the two conditions of its [elif]. *)
Lemma dispatch_LOAD_FAST rt ctx op h fr :
  opname op = "LOAD_FAST" →
  dispatch rt ctx op h fr =
    match dicts h (varnames ctx) !! argval op with
    | Some v => Ok (set_tos v fr, h)
    | None => Ok (flush_tos fr, h)
    end.
Proof.
  intros Hop. unfold dispatch, and_tos.
  rewrite !(has_opname_eq _ _ _ Hop), !(is_opname_eq _ _ _ Hop). simpl.
  destruct (dicts h (varnames ctx) !! argval op) as [v|] eqn:E.
  - rewrite (contains_true _ _ _ E). unfold getitem. rewrite E. reflexivity.
  - rewrite (contains_false _ _ E). reflexivity.
Qed.

(** C1, as the code has it.  A load of a local variable whose name is in
    [context.varnames] performs [set_tos(varnames[name])].  When the name is
    absent the instruction falls to the final [else]: a non-empty [tos] is
    appended to [refs] and cleared, and only with an empty [tos] is the
    walker state left as it was.  [varnames] is not written in either case. *)
Theorem load_fast_commits_or_flushes rt ctx op h fr :
  opname op = "LOAD_FAST" →
  (∀ v, dicts h (varnames ctx) !! argval op = Some v →
        dispatch rt ctx op h fr = Ok (set_tos v fr, h))
  ∧ (dicts h (varnames ctx) !! argval op = None →
        dispatch rt ctx op h fr = Ok (flush_tos fr, h)
        ∧ (tos fr = VNone → dispatch rt ctx op h fr = Ok (fr, h))
        ∧ (tos fr ≠ VNone →
             ∃ fr', dispatch rt ctx op h fr = Ok (fr', h)
                    ∧ tos fr' = VNone ∧ refs fr' = refs fr ++ [tos fr])).
Proof.
  intros Hop. rewrite (dispatch_LOAD_FAST _ _ _ _ _ Hop). split.
  - intros v ->. reflexivity.
  - intros ->. split; [reflexivity|]. split.
    + intros H. rewrite (flush_tos_empty _ H). reflexivity.
    + intros H. eexists. split; [reflexivity|].
      unfold flush_tos. destruct (tos fr); try contradiction; split; reflexivity.
Qed.

Lemma load_fast_commits_or_flushes_witness :
  dispatch Sample.rt Sample.ctx (Sample.ins "LOAD_FAST" "my_class")
           Sample.heap (Sample.frame_of VNone)
  = Ok (Sample.frame_of VNone, Sample.heap).
Proof.
  destruct (load_fast_commits_or_flushes Sample.rt Sample.ctx
              (Sample.ins "LOAD_FAST" "my_class") Sample.heap
              (Sample.frame_of VNone) eq_refl) as [_ Habsent].
  destruct (Habsent eq_refl) as (_ & Hempty & _).
  exact (Hempty eq_refl).
Defined.

(** C1, as the specification words it, fails: with [42] on top of the stack
    a load of the unknown local [my_class] moves the [42] into [refs]. *)
Lemma load_fast_absent_changes_state :
  let op := Sample.ins "LOAD_FAST" "my_class" in
  let fr := Sample.frame_of (VInt 42) in
  dicts Sample.heap (varnames Sample.ctx) !! argval op = None
  ∧ dispatch Sample.rt Sample.ctx op Sample.heap fr
    = Ok ({| tos := VNone; lineno := None; refs := [VInt 42] |}, Sample.heap)
  ∧ dispatch Sample.rt Sample.ctx op Sample.heap fr ≠ Ok (fr, Sample.heap).
Proof.
  vm_compute. split; [reflexivity|]. split; [reflexivity|]. discriminate.
Qed.

(** What an attribute-chain instruction does, by the three branches on
    [tos]. *)
Lemma dispatch_attribute rt ctx op h fr :
  opname op ∈ ["LOAD_ATTR"; "LOAD_METHOD"; "IMPORT_FROM"] →
  dispatch rt ctx op h fr =
    match tos fr with
    | VNone => Ok (append_ref (VStr (argval op)) fr, h)
    | VStr s => Ok (with_tos (VStr (s +:+ "." +:+ argval op)) fr, h)
    | o => v ← getattr rt o (argval op); Ok (with_tos v fr, h)
    end.
Proof.
  rewrite !elem_of_cons, elem_of_nil.
  intros [Hop | [Hop | [Hop | []]]]; unfold dispatch;
    rewrite !(has_opname_eq _ _ _ Hop), ?(is_opname_eq _ _ _ Hop); reflexivity.
Qed.

(** C2.  An attribute-chain instruction ([LOAD_ATTR], [LOAD_METHOD],
    [IMPORT_FROM]) with attribute name [n]: on an empty [tos], [n] is
    appended to [refs] and [tos] stays empty; on a string [s], [tos] becomes
    [s + "." + n] and [refs] is unchanged; on any other object [o], [tos]
    becomes [getattr(o, n)] and [refs] is unchanged (and a failing [getattr]
    is the exception of the step). *)
Theorem attribute_chain_three_cases rt ctx op h fr :
  opname op ∈ ["LOAD_ATTR"; "LOAD_METHOD"; "IMPORT_FROM"] →
  (tos fr = VNone →
     ∃ fr', dispatch rt ctx op h fr = Ok (fr', h)
            ∧ tos fr' = VNone ∧ refs fr' = refs fr ++ [VStr (argval op)])
  ∧ (∀ s, tos fr = VStr s →
     ∃ fr', dispatch rt ctx op h fr = Ok (fr', h)
            ∧ tos fr' = VStr (s +:+ "." +:+ argval op) ∧ refs fr' = refs fr)
  ∧ (tos fr ≠ VNone → (∀ s, tos fr ≠ VStr s) →
     (∀ v, getattr rt (tos fr) (argval op) = Ok v →
        ∃ fr', dispatch rt ctx op h fr = Ok (fr', h)
               ∧ tos fr' = v ∧ refs fr' = refs fr)
     ∧ (∀ e, getattr rt (tos fr) (argval op) = Raise e →
        dispatch rt ctx op h fr = Raise e)).
Proof.
  intros Hop. rewrite (dispatch_attribute _ _ _ _ _ Hop).
  split; [|split].
  - intros H. rewrite H. eexists. split; [reflexivity|]. split; [exact H | reflexivity].
  - intros s H. rewrite H. eexists. split; [reflexivity|]. split; reflexivity.
  - intros Hnone Hstr. split.
    + intros v Hv. exists (with_tos v fr).
      destruct (tos fr) as [| b | z | s | o] eqn:E;
        try contradiction; try (exfalso; exact (Hstr s eq_refl));
        rewrite Hv; repeat split.
    + intros e He.
      destruct (tos fr) as [| b | z | s | o] eqn:E;
        try contradiction; try (exfalso; exact (Hstr s eq_refl));
        rewrite He; reflexivity.
Qed.

Lemma attribute_chain_three_cases_witness :
  ∃ fr', dispatch Sample.rt Sample.ctx (Sample.ins "LOAD_ATTR" "b")
           Sample.heap (Sample.frame_of (VStr "a")) = Ok (fr', Sample.heap)
         ∧ tos fr' = VStr "a.b" ∧ refs fr' = [].
Proof.
  destruct (attribute_chain_three_cases Sample.rt Sample.ctx
              (Sample.ins "LOAD_ATTR" "b") Sample.heap
              (Sample.frame_of (VStr "a"))) as (_ & Hstr & _).
  - apply elem_of_cons. left. reflexivity.
  - exact (Hstr "a" eq_refl).
Defined.

(** What a [STORE_FAST] does, by the truth value of [tos]. *)
Lemma dispatch_STORE_FAST rt ctx op h fr :
  opname op = "STORE_FAST" →
  dispatch rt ctx op h fr =
    (sto ← truthy rt (tos fr);
     if sto : bool then
       Ok (with_tos VNone fr,
           store (varnames ctx)
             (<[argval op := tos fr]> (dicts h (varnames ctx))) h)
     else Ok (flush_tos fr, h)).
Proof.
  intros Hop. unfold dispatch, and_tos.
  rewrite !(has_opname_eq _ _ _ Hop), !(is_opname_eq _ _ _ Hop). simpl.
  destruct (truthy rt (tos fr)) as [[|]|e]; reflexivity.
Qed.

(** C4, as the code has it.  A store to the local [n] binds
    [varnames[n] = tos], clears [tos] and appends nothing to [refs] when the
    truth value of [tos] is [True].  The condition of the rule is [tos]
    itself, not [tos is not None]: a [tos] that is not empty but false ([0],
    [False], the empty string, ...) is not bound; the instruction then falls
    to the final [else], which moves [tos] into [refs]. *)
Theorem store_fast_binds_truthy_tos rt ctx op h fr :
  opname op = "STORE_FAST" →
  (truthy rt (tos fr) = Ok true →
     ∃ fr' h', dispatch rt ctx op h fr = Ok (fr', h')
       ∧ dicts h' (varnames ctx) = <[argval op := tos fr]> (dicts h (varnames ctx))
       ∧ dicts h' (varnames ctx) !! argval op = Some (tos fr)
       ∧ tos fr' = VNone ∧ refs fr' = refs fr)
  ∧ (truthy rt (tos fr) = Ok false →
     dispatch rt ctx op h fr = Ok (flush_tos fr, h)).
Proof.
  intros Hop. rewrite (dispatch_STORE_FAST _ _ _ _ _ Hop). split.
  - intros ->. do 2 eexists. split; [reflexivity|]. simpl.
    rewrite fn_lookup_insert. split; [reflexivity|].
    split; [apply lookup_insert_eq|]. split; reflexivity.
  - intros ->. reflexivity.
Qed.

Lemma store_fast_binds_truthy_tos_witness :
  ∃ fr' h', dispatch Sample.rt Sample.ctx (Sample.ins "STORE_FAST" "v")
              Sample.heap (Sample.frame_of (VInt 42)) = Ok (fr', h')
    ∧ dicts h' (varnames Sample.ctx)
      = <["v" := VInt 42]> (dicts Sample.heap (varnames Sample.ctx))
    ∧ dicts h' (varnames Sample.ctx) !! "v" = Some (VInt 42)
    ∧ tos fr' = VNone ∧ refs fr' = [].
Proof.
  destruct (store_fast_binds_truthy_tos Sample.rt Sample.ctx
              (Sample.ins "STORE_FAST" "v") Sample.heap
              (Sample.frame_of (VInt 42)) eq_refl) as [Htrue _].
  exact (Htrue eq_refl).
Defined.

(** C4, as the specification words it, fails: [tos] holding the integer [0]
    is not empty, yet a store to [v] binds nothing and appends the [0] to
    [refs].  So does the walk of [def x(): v = zero] with the global
    [zero = 0]. *)
Lemma store_fast_skips_falsy_tos :
  let op := Sample.ins "STORE_FAST" "v" in
  let fr := Sample.frame_of (VInt 0) in
  is_None (tos fr) = false
  ∧ dispatch Sample.rt Sample.ctx op Sample.heap fr
    = Ok ({| tos := VNone; lineno := None; refs := [VInt 0] |}, Sample.heap)
  ∧ dicts Sample.heap (varnames Sample.ctx) !! "v" = None
  ∧ (let code := Sample.code_of [Sample.ins "LOAD_GLOBAL" "zero";
                                 Sample.ins "STORE_FAST" "v";
                                 Sample.ins "LOAD_CONST" "None";
                                 Sample.ins "RETURN_VALUE" ""] in
     let out := get_referenced_objects Sample.rt code Sample.ctx Sample.heap in
     out.1 = Ok [VInt 0] ∧ dicts out.2 (varnames Sample.ctx) !! "v" = None).
Proof. vm_compute. repeat split. Qed.

(** What an [IMPORT_NAME] does, by the outcome of the import. *)
Lemma dispatch_IMPORT_NAME rt ctx op h fr :
  opname op = "IMPORT_NAME" →
  dispatch rt ctx op h fr =
    match import_module rt (argval op) with
    | Ok m => Ok (set_tos m fr, h)
    | Raise e =>
        if is_ImportError e then Ok (set_tos (VStr (argval op)) fr, h)
        else Raise e
    end.
Proof.
  intros Hop. unfold dispatch.
  rewrite !(has_opname_eq _ _ _ Hop), !(is_opname_eq _ _ _ Hop). reflexivity.
Qed.

(** C8.  An [IMPORT_NAME] of the dotted name [n] calls
    [importlib.import_module(n)]: when the call returns the module [m] the
    step is [set_tos(m)]; when the call raises an [ImportError] (the module
    cannot be imported) the step is [set_tos(n)] with the name as a string,
    and the step returns normally. *)
Theorem import_name_commits_module_or_name rt ctx op h fr :
  opname op = "IMPORT_NAME" →
  (∀ m, import_module rt (argval op) = Ok m →
        dispatch rt ctx op h fr = Ok (set_tos m fr, h))
  ∧ (∀ e, import_module rt (argval op) = Raise e → is_ImportError e = true →
        dispatch rt ctx op h fr = Ok (set_tos (VStr (argval op)) fr, h)).
Proof.
  intros Hop. rewrite (dispatch_IMPORT_NAME _ _ _ _ _ Hop). split.
  - intros m ->. reflexivity.
  - intros e -> ->. reflexivity.
Qed.

Lemma import_name_commits_module_or_name_witness :
  dispatch Sample.rt Sample.ctx (Sample.ins "IMPORT_NAME" "pytest")
           Sample.heap (Sample.frame_of VNone)
  = Ok (set_tos (VStr "pytest") (Sample.frame_of VNone), Sample.heap).
Proof.
  destruct (import_name_commits_module_or_name Sample.rt Sample.ctx
              (Sample.ins "IMPORT_NAME" "pytest") Sample.heap
              (Sample.frame_of VNone) eq_refl) as [_ Hfail].
  exact (Hfail (ModuleNotFoundError "pytest") eq_refl eq_refl).
Defined.

(** An exception of the import that is not an [ImportError] is not part of
    the fallback: it is the exception of the step. *)
Lemma import_name_other_exception rt ctx op h fr e :
  opname op = "IMPORT_NAME" →
  import_module rt (argval op) = Raise e → is_ImportError e = false →
  dispatch rt ctx op h fr = Raise e.
Proof.
  intros Hop He Hk. rewrite (dispatch_IMPORT_NAME _ _ _ _ _ Hop), He, Hk.
  reflexivity.
Qed.

(** ** The loop over the instructions *)

Lemma update_lineno_tos op fr : tos (update_lineno op fr) = tos fr.
Proof. unfold update_lineno. destruct (starts_line op); reflexivity. Qed.

Lemma update_lineno_refs op fr : refs (update_lineno op fr) = refs fr.
Proof. unfold update_lineno. destruct (starts_line op); reflexivity. Qed.

Lemma update_lineno_lineno op fr :
  lineno (update_lineno op fr) =
    match starts_line op with Some l => Some l | None => lineno fr end.
Proof. unfold update_lineno. destruct (starts_line op); reflexivity. Qed.

Lemma set_tos_lineno t fr : lineno (set_tos t fr) = lineno fr.
Proof. unfold set_tos. destruct (is_None (tos fr)); reflexivity. Qed.

Lemma flush_tos_lineno fr : lineno (flush_tos fr) = lineno fr.
Proof. unfold flush_tos. destruct (is_None (tos fr)); reflexivity. Qed.

Lemma flush_tos_refs fr : ∃ more, refs (flush_tos fr) = refs fr ++ more.
Proof.
  unfold flush_tos. destruct (is_None (tos fr)); simpl.
  - exists []. symmetry. apply app_nil_r.
  - eexists. reflexivity.
Qed.

(** A step that returns keeps the line number, only appends to [refs], and
    writes to no dict but the one [context.varnames] refers to. *)
Lemma dispatch_ok_inv rt ctx op h fr fr' h' :
  dispatch rt ctx op h fr = Ok (fr', h') →
  lineno fr' = lineno fr
  ∧ (∃ more, refs fr' = refs fr ++ more)
  ∧ next_loc h' = next_loc h
  ∧ (∀ l, l ≠ varnames ctx → dicts h' l = dicts h l).
Proof.
  intros H. dispatch_cases H.
  all: rewrite ?set_tos_lineno, ?flush_tos_lineno, ?set_tos_refs.
  all: repeat split; auto using flush_tos_refs.
  all: try (exists []; by rewrite app_nil_r).
  all: try (eexists; reflexivity).
  all: intros l Hl; simpl; by rewrite fn_lookup_insert_ne.
Qed.

Lemma loop_app rt code ctx pre post h fr :
  loop rt code ctx (pre ++ post) h fr =
    match loop rt code ctx pre h fr with
    | (Ok fr1, h1) => loop rt code ctx post h1 fr1
    | (Raise e, h1) => (Raise e, h1)
    end.
Proof.
  revert h fr. induction pre as [|op pre IH]; intros h fr; simpl.
  - reflexivity.
  - destruct (dispatch rt ctx op h (update_lineno op fr)) as [[fr2 h2]|e].
    + apply IH.
    + reflexivity.
Qed.

(** The store after the loop, whether it returned or raised, differs from
    the store before it at most in the dict of [context.varnames]. *)
Lemma loop_frame rt code ctx ops h fr l :
  l ≠ varnames ctx →
  dicts (loop rt code ctx ops h fr).2 l = dicts h l.
Proof.
  intros Hl. revert h fr. induction ops as [|op ops IH]; intros h fr; simpl.
  - reflexivity.
  - destruct (dispatch rt ctx op h (update_lineno op fr)) as [[fr2 h2]|e] eqn:E.
    + rewrite IH. apply dispatch_ok_inv in E as (_ & _ & _ & Hframe).
      apply Hframe, Hl.
    + reflexivity.
Qed.

(** [refs] only grows. *)
Lemma loop_refs_grow rt code ctx ops h fr fr' h' :
  loop rt code ctx ops h fr = (Ok fr', h') →
  ∃ more, refs fr' = refs fr ++ more.
Proof.
  revert h fr. induction ops as [|op ops IH]; intros h fr; simpl.
  - intros [= <- <-]. exists []. symmetry. apply app_nil_r.
  - destruct (dispatch rt ctx op h (update_lineno op fr)) as [[fr2 h2]|e] eqn:E.
    + intros Hloop. apply IH in Hloop as [more2 Hmore2].
      apply dispatch_ok_inv in E as (_ & [more1 Hmore1] & _).
      rewrite update_lineno_refs in Hmore1.
      exists (more1 ++ more2). rewrite Hmore2, Hmore1. symmetry. apply app_assoc.
    + discriminate.
Qed.

(** The line number the loop holds is the last one it has seen. *)
Lemma loop_lineno rt code ctx ops h fr fr' h' :
  loop rt code ctx ops h fr = (Ok fr', h') →
  lineno fr' =
    foldl (λ ln op, match starts_line op with Some l => Some l | None => ln end)
          (lineno fr) ops.
Proof.
  revert h fr. induction ops as [|op ops IH]; intros h fr; simpl.
  - intros [= <- <-]. reflexivity.
  - destruct (dispatch rt ctx op h (update_lineno op fr)) as [[fr2 h2]|e] eqn:E.
    + intros Hloop. rewrite (IH _ _ Hloop).
      apply dispatch_ok_inv in E as (-> & _).
      rewrite update_lineno_lineno. reflexivity.
    + discriminate.
Qed.

(** C7.  When the last instruction has been processed the walk returns
    [refs] as it stands; a value still held in [tos] is not appended. *)
Theorem trailing_tos_is_dropped rt code ctx h fr h' :
  loop rt code ctx (co_instructions code) h init_frame = (Ok fr, h') →
  get_referenced_objects rt code ctx h = (Ok (refs fr), h')
  ∧ (tos fr ≠ VNone →
     get_referenced_objects rt code ctx h ≠ (Ok (refs fr ++ [tos fr]), h')).
Proof.
  intros Hloop. unfold get_referenced_objects. rewrite Hloop. simpl.
  split; [reflexivity|].
  intros _ [= Heq].
  apply (f_equal length) in Heq. rewrite length_app in Heq. simpl in Heq. lia.
Qed.

Lemma trailing_tos_is_dropped_witness :
  let code := Sample.code_of [Sample.ins "LOAD_GLOBAL" "global_val"] in
  get_referenced_objects Sample.rt code Sample.ctx Sample.heap = (Ok [], Sample.heap)
  ∧ (VInt 42 ≠ VNone →
     get_referenced_objects Sample.rt code Sample.ctx Sample.heap
     ≠ (Ok ([] ++ [VInt 42]), Sample.heap)).
Proof.
  exact (trailing_tos_is_dropped Sample.rt
           (Sample.code_of [Sample.ins "LOAD_GLOBAL" "global_val"])
           Sample.ctx Sample.heap
           {| tos := VInt 42; lineno := None; refs := [] |} Sample.heap eq_refl).
Defined.

(** C9.  Whether the walk returns or raises, every dict other than the one
    [context.varnames] refers to has the content it had before: of the three
    mappings of the context only [varnames] is written.  [context.globals]
    and [context.cells], being dicts of their own (as in every context that
    [get_code_context] builds), are left as they were. *)
Theorem walk_writes_only_varnames rt code ctx h :
  (∀ l, l ≠ varnames ctx →
        dicts (get_referenced_objects rt code ctx h).2 l = dicts h l)
  ∧ (globals ctx ≠ varnames ctx →
        dicts (get_referenced_objects rt code ctx h).2 (globals ctx)
        = dicts h (globals ctx))
  ∧ (cells ctx ≠ varnames ctx →
        dicts (get_referenced_objects rt code ctx h).2 (cells ctx)
        = dicts h (cells ctx)).
Proof.
  assert (Hframe : ∀ l, l ≠ varnames ctx →
            dicts (get_referenced_objects rt code ctx h).2 l = dicts h l).
  { intros l Hl. unfold get_referenced_objects.
    pose proof (loop_frame rt code ctx (co_instructions code) h init_frame l Hl) as H.
    destruct (loop rt code ctx (co_instructions code) h init_frame) as [r h1].
    exact H. }
  split; [exact Hframe|]. split; apply Hframe.
Qed.

Lemma walk_writes_only_varnames_witness :
  dicts (get_referenced_objects Sample.rt Sample.bad_deref Sample.ctx Sample.heap).2
        (globals Sample.ctx)
  = dicts Sample.heap (globals Sample.ctx).
Proof.
  destruct (walk_writes_only_varnames Sample.rt Sample.bad_deref Sample.ctx
              Sample.heap) as (_ & Hglobals & _).
  apply Hglobals. discriminate.
Defined.

(** The contexts of [get_code_context] have a [cells] and a [varnames] dict
    of their own: neither is the dict of the globals, nor are the two the
    same. *)
Lemma get_code_context_fresh func h ctx h' :
  get_code_context func h = Ok (ctx, h') →
  (__globals__ func < next_loc h)%nat →
  globals ctx = __globals__ func
  ∧ globals ctx ≠ varnames ctx ∧ cells ctx ≠ varnames ctx
  ∧ globals ctx ≠ cells ctx.
Proof.
  unfold get_code_context, alloc, mbind, result_bind. intros H Hlive.
  repeat (case_match; simplify_eq/=); repeat split; lia.
Qed.

(** ** The error handler *)

Lemma append_assoc (s1 s2 s3 : string) :
  (s1 +:+ s2) +:+ s3 = s1 +:+ s2 +:+ s3.
Proof.
  induction s1 as [|c s1 IH]; [reflexivity|].
  change (String c ((s1 +:+ s2) +:+ s3) = String c (s1 +:+ s2 +:+ s3)).
  f_equal. exact IH.
Qed.

Lemma includes_here s post : includes (s +:+ post) s.
Proof. exists "", post. reflexivity. Qed.

Lemma includes_later pre s sub : includes s sub → includes (pre +:+ s) sub.
Proof.
  intros (p & q & ->). exists (pre +:+ p), q. symmetry. apply append_assoc.
Qed.

(** The text of the message names the file, the line and the code object. *)
Lemma message_text_includes code ln :
  includes (message_text code ln) (co_filename code)
  ∧ includes (message_text code ln) (str_lineno ln)
  ∧ includes (message_text code ln) (co_name code).
Proof.
  unfold message_text.
  repeat split; repeat (apply includes_here || apply includes_later).
Qed.

Lemma best_known_line_snoc pre op :
  best_known_line (pre ++ [op]) =
    match starts_line op with Some l => Some l | None => best_known_line pre end.
Proof. unfold best_known_line. rewrite foldl_snoc. reflexivity. Qed.

(** The handler never gets as far as raising the domain error: the call of
    the class, one argument short, raises a [TypeError]. *)
Lemma wrap_error_is_TypeError rt code ln e :
  wrap_error rt code ln e
  = TypeError "__init__() missing 1 required positional argument: 'bad_descriptor'".
Proof. reflexivity. Qed.

(** When the instructions before [op] are processed without an exception
    and processing [op] raises [e], the handler is entered with the last
    line number seen up to and including [op]; what the walk raises is the
    [TypeError] of the handler, which is not a [CodeVersioningError] and
    carries neither the message nor [e]. *)
Lemma instruction_error_is_not_wrapped rt code ctx h pre op post fr1 h1 e :
  co_instructions code = pre ++ op :: post →
  loop rt code ctx pre h init_frame = (Ok fr1, h1) →
  dispatch rt ctx op h1 (update_lineno op fr1) = Raise e →
  get_referenced_objects rt code ctx h
    = (Raise (wrap_error rt code (best_known_line (pre ++ [op])) e), h1)
  ∧ is_CodeVersioningError
      (wrap_error rt code (best_known_line (pre ++ [op])) e) = false.
Proof.
  intros Hops Hpre Hraise. split; [|reflexivity].
  unfold get_referenced_objects. rewrite Hops, loop_app, Hpre. simpl.
  rewrite Hraise. simpl.
  rewrite best_known_line_snoc, update_lineno_lineno.
  rewrite (loop_lineno _ _ _ _ _ _ _ _ Hpre). reflexivity.
Qed.

(** C6 does not hold of the code.  In the walk of [Sample.bad_deref] the
    third instruction reads a closure variable that [context.cells] does
    not have, which raises [KeyError].  The handler builds its message and
    calls [CodeVersioningError(message)]; the class needs [bad_descriptor]
    as well, so the call raises a [TypeError], and that is what leaves the
    walk: not the domain error, without the message, and without the
    [KeyError] as its cause. *)
Theorem handler_raises_TypeError_for_missing_cell :
  dispatch Sample.rt Sample.ctx (Sample.ins "LOAD_DEREF" "missing")
           (store 2 {["v" := VInt 42]} Sample.heap)
           {| tos := VNone; lineno := Some 7%Z; refs := [] |}
  = Raise (KeyError "missing")
  ∧ get_referenced_objects Sample.rt Sample.bad_deref Sample.ctx Sample.heap
    = (Raise (TypeError
         "__init__() missing 1 required positional argument: 'bad_descriptor'"),
       store 2 {["v" := VInt 42]} Sample.heap)
  ∧ (∀ message cause,
       (get_referenced_objects Sample.rt Sample.bad_deref Sample.ctx
          Sample.heap).1
       ≠ Raise (CodeVersioningError message cause)).
Proof.
  split; [reflexivity|]. split; [reflexivity|].
  intros message cause. discriminate.
Qed.

(** ** Bindings of [context.varnames] across the walk *)

Lemma stores_name_ne n op :
  is_opname op "STORE_FAST" = true → stores_name n op = false → argval op ≠ n.
Proof.
  unfold stores_name. intros -> H. simpl in H.
  by apply bool_decide_eq_false in H.
Qed.

Lemma deletes_name_ne n op :
  is_opname op "DELETE_FAST" = true → deletes_name n op = false → argval op ≠ n.
Proof.
  unfold deletes_name. intros -> H. simpl in H.
  by apply bool_decide_eq_false in H.
Qed.

(** A step that is neither a store nor a delete of [n] leaves [varnames[n]]
    as it is. *)
Lemma dispatch_keeps_binding rt ctx op h fr fr' h' n :
  dispatch rt ctx op h fr = Ok (fr', h') →
  deletes_name n op = false → stores_name n op = false →
  dicts h' (varnames ctx) !! n = dicts h (varnames ctx) !! n.
Proof.
  intros H Hdel Hsto. dispatch_cases H; try reflexivity.
  all: rewrite fn_lookup_insert.
  all: first [ apply lookup_delete_ne; by apply deletes_name_ne
             | apply lookup_insert_ne; by apply stores_name_ne ].
Qed.

(** A step that is not a delete of [n] leaves [n] bound if it was. *)
Lemma dispatch_keeps_bound rt ctx op h fr fr' h' n :
  dispatch rt ctx op h fr = Ok (fr', h') →
  deletes_name n op = false →
  is_Some (dicts h (varnames ctx) !! n) →
  is_Some (dicts h' (varnames ctx) !! n).
Proof.
  intros H Hdel Hbound. dispatch_cases H; try exact Hbound.
  all: rewrite fn_lookup_insert.
  all: first [ rewrite lookup_delete_ne; [exact Hbound | by apply deletes_name_ne]
             | apply lookup_insert_is_Some;
               destruct (decide (argval op = n)); [by left | by right] ].
Qed.

Lemma loop_keeps_binding rt code ctx ops h fr n v :
  Forall (λ o, deletes_name n o = false ∧ stores_name n o = false) ops →
  dicts h (varnames ctx) !! n = Some v →
  dicts (loop rt code ctx ops h fr).2 (varnames ctx) !! n = Some v.
Proof.
  intros Hops. revert h fr.
  induction Hops as [|op ops [Hdel Hsto] _ IH]; intros h fr Hv; simpl.
  - exact Hv.
  - destruct (dispatch rt ctx op h (update_lineno op fr)) as [[fr2 h2]|e] eqn:E.
    + apply IH. rewrite <- Hv. by eapply dispatch_keeps_binding.
    + exact Hv.
Qed.

Lemma loop_keeps_bound rt code ctx ops h fr n :
  Forall (λ o, deletes_name n o = false) ops →
  is_Some (dicts h (varnames ctx) !! n) →
  is_Some (dicts (loop rt code ctx ops h fr).2 (varnames ctx) !! n).
Proof.
  intros Hops. revert h fr.
  induction Hops as [|op ops Hdel _ IH]; intros h fr Hv; simpl.
  - exact Hv.
  - destruct (dispatch rt ctx op h (update_lineno op fr)) as [[fr2 h2]|e] eqn:E.
    + apply IH. by eapply dispatch_keeps_bound.
    + exact Hv.
Qed.

(** C10.  A binding that a [STORE_FAST] makes stays in the dict of
    [context.varnames] after the walk, whether the walk returns or raises:
    the name is still bound when no later instruction is a [DELETE_FAST] of
    it, and bound to the stored value when no later instruction is a
    [STORE_FAST] of it either.  Nothing puts the dict back to its content of
    before the walk. *)
Theorem stored_bindings_persist rt code ctx h pre op post fr1 h1 :
  co_instructions code = pre ++ op :: post →
  loop rt code ctx pre h init_frame = (Ok fr1, h1) →
  opname op = "STORE_FAST" →
  truthy rt (tos fr1) = Ok true →
  let after := dicts (get_referenced_objects rt code ctx h).2 (varnames ctx) in
  (Forall (λ o, deletes_name (argval op) o = false) post →
     is_Some (after !! argval op))
  ∧ (Forall (λ o, deletes_name (argval op) o = false
                  ∧ stores_name (argval op) o = false) post →
     after !! argval op = Some (tos fr1)
     ∧ (dicts h (varnames ctx) !! argval op ≠ Some (tos fr1) →
        after ≠ dicts h (varnames ctx))).
Proof.
  intros Hops Hpre Hop Htrue after.
  assert (Hafter : after =
            dicts (loop rt code ctx post
                     (store (varnames ctx)
                        (<[argval op := tos fr1]> (dicts h1 (varnames ctx))) h1)
                     (with_tos VNone (update_lineno op fr1))).2 (varnames ctx)).
  { subst after. unfold get_referenced_objects.
    rewrite Hops, loop_app, Hpre. simpl.
    rewrite (dispatch_STORE_FAST _ _ _ _ _ Hop), update_lineno_tos, Htrue. simpl.
    destruct (loop rt code ctx post _ _) as [r h2]. reflexivity. }
  assert (Hstored :
    dicts (store (varnames ctx)
             (<[argval op := tos fr1]> (dicts h1 (varnames ctx))) h1)
          (varnames ctx) !! argval op = Some (tos fr1)).
  { simpl. rewrite fn_lookup_insert. apply lookup_insert_eq. }
  split.
  - intros Hpost. rewrite Hafter. apply loop_keeps_bound; [exact Hpost|].
    rewrite Hstored. eauto.
  - intros Hpost.
    assert (Hv : after !! argval op = Some (tos fr1)).
    { rewrite Hafter. by apply loop_keeps_binding. }
    split; [exact Hv|]. intros Hbefore Heq. apply Hbefore.
    rewrite <- Heq. exact Hv.
Qed.

Lemma stored_bindings_persist_witness :
  dicts (get_referenced_objects Sample.rt Sample.store_chain Sample.ctx
           Sample.heap).2 (varnames Sample.ctx) !! "v"
  = Some (VStr "a.b.c").
Proof.
  destruct (stored_bindings_persist Sample.rt Sample.store_chain Sample.ctx
              Sample.heap
              [Sample.ins_at 2 "LOAD_GLOBAL" "a"; Sample.ins "LOAD_ATTR" "b";
               Sample.ins "LOAD_ATTR" "c"]
              (Sample.ins "STORE_FAST" "v")
              [Sample.ins "LOAD_CONST" "None"; Sample.ins "RETURN_VALUE" ""]
              {| tos := VStr "a.b.c"; lineno := Some 2%Z; refs := [] |}
              Sample.heap eq_refl eq_refl eq_refl eq_refl) as [_ Hvalue].
  apply Hvalue.
  repeat (apply Forall_cons; split; [split; reflexivity|]). apply Forall_nil.
  exact I.
Defined.

(** ** Attribute chains on an unresolved name *)

(** A load of a global that [context.globals] does not have puts the name
    itself on top of the stack. *)
Lemma dispatch_LOAD_GLOBAL_absent rt ctx op h fr :
  opname op ∈ ["LOAD_GLOBAL"; "LOAD_NAME"] →
  dicts h (globals ctx) !! argval op = None →
  dispatch rt ctx op h fr = Ok (set_tos (VStr (argval op)) fr, h).
Proof.
  intros Hop Habsent. unfold dispatch, has_opname.
  rewrite (bool_decide_eq_true_2 _ Hop), (contains_false _ _ Habsent).
  reflexivity.
Qed.

(** An instruction without a rule of its own moves [tos] into [refs]. *)
Lemma dispatch_default rt ctx op h fr :
  opname op ∉ handled_opnames →
  dispatch rt ctx op h fr = Ok (flush_tos fr, h).
Proof.
  intros Hop.
  assert (Hno : ∀ names, names ⊆ handled_opnames → has_opname op names = false).
  { intros names Hsub. by apply (has_opname_sub op names handled_opnames). }
  assert (Hne : ∀ name, name ∈ handled_opnames → is_opname op name = false).
  { intros name Hin. by apply (is_opname_not_in op name handled_opnames). }
  unfold dispatch, and_tos.
  rewrite !Hno; [|handled_sublist ..].
  rewrite !Hne; [reflexivity | handled_name ..].
Qed.

Lemma with_tos_refs t fr : refs (with_tos t fr) = refs fr.
Proof. reflexivity. Qed.

Lemma flush_tos_update_lineno op fr :
  refs (flush_tos (update_lineno op fr)) = refs (flush_tos fr).
Proof.
  unfold flush_tos. rewrite update_lineno_tos.
  destruct (is_None (tos fr)); simpl; by rewrite update_lineno_refs.
Qed.

(** The four steps of a read of [a.b.c] whose value is then consumed. *)
Lemma loop_chain rt code ctx ld at1 at2 use h fr :
  opname ld ∈ ["LOAD_GLOBAL"; "LOAD_NAME"] →
  dicts h (globals ctx) !! argval ld = None →
  opname at1 ∈ ["LOAD_ATTR"; "LOAD_METHOD"; "IMPORT_FROM"] →
  opname at2 ∈ ["LOAD_ATTR"; "LOAD_METHOD"; "IMPORT_FROM"] →
  opname use ∉ handled_opnames →
  ∃ fr4, loop rt code ctx [ld; at1; at2; use] h fr = (Ok fr4, h)
     ∧ tos fr4 = VNone
     ∧ refs fr4 = refs (flush_tos fr)
                  ++ [VStr (argval ld +:+ "." +:+ argval at1 +:+ "." +:+ argval at2)].
Proof.
  intros Hld Habsent Hat1 Hat2 Huse. simpl.
  rewrite (dispatch_LOAD_GLOBAL_absent _ _ _ _ _ Hld Habsent).
  rewrite (dispatch_attribute _ _ _ _ _ Hat1), update_lineno_tos. simpl.
  rewrite (dispatch_attribute _ _ _ _ _ Hat2), update_lineno_tos. simpl.
  rewrite (dispatch_default _ _ _ _ _ Huse).
  eexists. split; [reflexivity|]. split; [apply flush_tos_tos|].
  unfold flush_tos at 1. rewrite update_lineno_tos. simpl.
  repeat (rewrite ?update_lineno_refs, ?with_tos_refs).
  rewrite set_tos_refs, flush_tos_update_lineno, append_assoc. reflexivity.
Qed.

(** The three steps of a read of [a.b.c] on an unknown global [a]. *)
Lemma loop_chain3 rt code ctx ld at1 at2 h fr :
  opname ld ∈ ["LOAD_GLOBAL"; "LOAD_NAME"] →
  dicts h (globals ctx) !! argval ld = None →
  opname at1 ∈ ["LOAD_ATTR"; "LOAD_METHOD"; "IMPORT_FROM"] →
  opname at2 ∈ ["LOAD_ATTR"; "LOAD_METHOD"; "IMPORT_FROM"] →
  ∃ fr3, loop rt code ctx [ld; at1; at2] h fr = (Ok fr3, h)
     ∧ tos fr3 = VStr (argval ld +:+ "." +:+ argval at1 +:+ "." +:+ argval at2)
     ∧ refs fr3 = refs (flush_tos fr).
Proof.
  intros Hld Habsent Hat1 Hat2. simpl.
  rewrite (dispatch_LOAD_GLOBAL_absent _ _ _ _ _ Hld Habsent).
  rewrite (dispatch_attribute _ _ _ _ _ Hat1), update_lineno_tos. simpl.
  rewrite (dispatch_attribute _ _ _ _ _ Hat2), update_lineno_tos. simpl.
  eexists. split; [reflexivity|]. split.
  - simpl. rewrite append_assoc. reflexivity.
  - repeat (rewrite ?update_lineno_refs, ?with_tos_refs).
    rewrite set_tos_refs. apply flush_tos_update_lineno.
Qed.

(** A dotted name is not the empty string: its truth value is [True]. *)
Lemma dotted_is_truthy rt x y : truthy rt (VStr (x +:+ "." +:+ y)) = Ok true.
Proof. destruct x; reflexivity. Qed.

(** An instruction that is not an attribute-chain instruction, a store or
    a delete, and that returns, has moved the value of [tos] to [refs] and
    written nothing: its rule is [set_tos] or the final [else]. *)
Lemma dispatch_consumes rt ctx op h fr fr' h' :
  opname op ∉ keeping_opnames →
  dispatch rt ctx op h fr = Ok (fr', h') →
  h' = h ∧ refs fr' = refs (flush_tos fr).
Proof.
  intros Hop H.
  assert (H1 : has_opname op ["LOAD_METHOD"; "LOAD_ATTR"; "IMPORT_FROM"] = false).
  { apply (has_opname_sub op _ keeping_opnames); [|exact Hop].
    intros x. unfold keeping_opnames. rewrite !elem_of_cons, !elem_of_nil. tauto. }
  assert (H2 : is_opname op "DELETE_FAST" = false).
  { apply (is_opname_not_in op _ keeping_opnames); [|exact Hop].
    unfold keeping_opnames. rewrite !elem_of_cons. tauto. }
  assert (H3 : is_opname op "STORE_FAST" = false).
  { apply (is_opname_not_in op _ keeping_opnames); [|exact Hop].
    unfold keeping_opnames. rewrite !elem_of_cons. tauto. }
  unfold dispatch in H. rewrite H1, H2, H3 in H.
  unfold and_tos, getitem, mbind, result_bind in H.
  repeat (case_match; simplify_eq); (split; [reflexivity|]);
    first [apply set_tos_refs | reflexivity].
Qed.

(** C3, as the code has it.  For a read of [a.b.c] whose base name is
    loaded as a global that [context.globals] does not have: the three
    instructions do not raise, they leave the one string [a.b.c] in [tos],
    and they append none of the three names to [refs].  When the next
    instruction is neither an attribute-chain instruction nor a store or a
    delete of a local (a return, a call, another load, ...) and is processed
    without exception, it moves the string to [refs] as one reference, and
    a walk that returns has it in its result; an instruction without a rule
    of its own is always processed without exception.  When the next
    instruction is a [STORE_FAST] of [n], the string is bound to
    [varnames[n]] and nothing is appended to [refs]. *)
Theorem unresolved_chain_is_one_reference
    rt code ctx h pre ld at1 at2 use post fr1 h1 :
  co_instructions code = pre ++ [ld; at1; at2; use] ++ post →
  loop rt code ctx pre h init_frame = (Ok fr1, h1) →
  opname ld ∈ ["LOAD_GLOBAL"; "LOAD_NAME"] →
  dicts h1 (globals ctx) !! argval ld = None →
  opname at1 ∈ ["LOAD_ATTR"; "LOAD_METHOD"; "IMPORT_FROM"] →
  opname at2 ∈ ["LOAD_ATTR"; "LOAD_METHOD"; "IMPORT_FROM"] →
  let dotted :=
    VStr (argval ld +:+ "." +:+ argval at1 +:+ "." +:+ argval at2) in
  let four := pre ++ [ld; at1; at2; use] in
  (∃ fr3, loop rt code ctx (pre ++ [ld; at1; at2]) h init_frame = (Ok fr3, h1)
     ∧ tos fr3 = dotted
     ∧ refs fr3 = refs (flush_tos fr1))
  ∧ (opname use ∉ keeping_opnames →
       (∀ fr4 h4, loop rt code ctx four h init_frame = (Ok fr4, h4) →
          h4 = h1 ∧ refs fr4 = refs (flush_tos fr1) ++ [dotted])
       ∧ (∀ rs h', get_referenced_objects rt code ctx h = (Ok rs, h') →
          ∃ more, rs = refs (flush_tos fr1) ++ [dotted] ++ more))
  ∧ (opname use ∉ handled_opnames →
       ∃ fr4, loop rt code ctx four h init_frame = (Ok fr4, h1)
         ∧ tos fr4 = VNone
         ∧ refs fr4 = refs (flush_tos fr1) ++ [dotted])
  ∧ (opname use = "STORE_FAST" →
       ∃ fr4, loop rt code ctx four h init_frame
              = (Ok fr4, store (varnames ctx)
                           (<[argval use := dotted]> (dicts h1 (varnames ctx))) h1)
         ∧ tos fr4 = VNone
         ∧ refs fr4 = refs (flush_tos fr1)).
Proof.
  intros Hops Hpre Hld Habsent Hat1 Hat2 dotted four.
  destruct (loop_chain3 rt code ctx ld at1 at2 h1 fr1 Hld Habsent Hat1 Hat2)
    as (fr3 & Hthree & Htos3 & Hrefs3).
  assert (Hprefix3 :
    loop rt code ctx (pre ++ [ld; at1; at2]) h init_frame = (Ok fr3, h1)).
  { rewrite loop_app, Hpre. exact Hthree. }
  assert (Hfour : loop rt code ctx four h init_frame =
            match dispatch rt ctx use h1 (update_lineno use fr3) with
            | Ok (fr4, h4) => (Ok fr4, h4)
            | Raise e =>
                (Raise (wrap_error rt code (lineno (update_lineno use fr3)) e), h1)
            end).
  { subst four.
    change (pre ++ [ld; at1; at2; use]) with (pre ++ [ld; at1; at2] ++ [use]).
    rewrite app_assoc, loop_app, Hprefix3. simpl.
    destruct (dispatch rt ctx use h1 (update_lineno use fr3)) as [[fr4 h4]|e];
      reflexivity. }
  assert (Hflush3 : refs (flush_tos (update_lineno use fr3))
                    = refs (flush_tos fr1) ++ [dotted]).
  { rewrite flush_tos_update_lineno. unfold flush_tos at 1.
    subst dotted. rewrite Htos3. simpl. rewrite Hrefs3. reflexivity. }
  split; [|split; [|split]].
  - exists fr3. auto.
  - intros Huse.
    assert (Hstep : ∀ fr4 h4,
              loop rt code ctx four h init_frame = (Ok fr4, h4) →
              h4 = h1 ∧ refs fr4 = refs (flush_tos fr1) ++ [dotted]).
    { intros fr4 h4. rewrite Hfour.
      destruct (dispatch rt ctx use h1 (update_lineno use fr3))
        as [[fr4' h4']|e] eqn:E; intros [= <- <-].
      apply (dispatch_consumes _ _ _ _ _ _ _ Huse) in E as [-> Hrefs4].
      split; [reflexivity|]. rewrite Hrefs4. exact Hflush3. }
    split; [exact Hstep|].
    intros rs h'. unfold get_referenced_objects.
    rewrite Hops, app_assoc. fold four. rewrite loop_app.
    destruct (loop rt code ctx four h init_frame) as [[fr4|e] h4] eqn:Hrun.
    + destruct (Hstep fr4 h4 eq_refl) as [-> Hrefs4].
      destruct (loop rt code ctx post h1 fr4) as [[fr5|e] h5] eqn:Hpost;
        simpl; intros [= <- <-].
      apply loop_refs_grow in Hpost as [more Hmore].
      exists more. rewrite Hmore, Hrefs4, <- app_assoc. reflexivity.
    + simpl. discriminate.
  - intros Huse. rewrite Hfour, (dispatch_default _ _ _ _ _ Huse).
    eexists. split; [reflexivity|]. split; [apply flush_tos_tos | exact Hflush3].
  - intros Huse. rewrite Hfour, (dispatch_STORE_FAST _ _ _ _ _ Huse).
    rewrite update_lineno_tos, Htos3. subst dotted.
    rewrite dotted_is_truthy. simpl.
    eexists. split; [reflexivity|]. split; [reflexivity|].
    simpl. rewrite update_lineno_refs. exact Hrefs3.
Qed.

Lemma unresolved_chain_is_one_reference_witness :
  ∃ more, [VStr "f"; VStr "a.b.c"; VStr "g"]
          = [VStr "f"] ++ [VStr "a.b.c"] ++ more.
Proof.
  destruct (unresolved_chain_is_one_reference Sample.rt Sample.call_with_chain
              Sample.ctx Sample.heap [Sample.ins_at 2 "LOAD_GLOBAL" "f"]
              (Sample.ins "LOAD_GLOBAL" "a") (Sample.ins "LOAD_ATTR" "b")
              (Sample.ins "LOAD_ATTR" "c") (Sample.ins "LOAD_GLOBAL" "g")
              [Sample.ins "CALL_FUNCTION" "2"; Sample.ins "RETURN_VALUE" ""]
              {| tos := VStr "f"; lineno := Some 2%Z; refs := [] |}
              Sample.heap eq_refl eq_refl) as (_ & Hconsumed & _).
  - apply elem_of_cons. left. reflexivity.
  - reflexivity.
  - apply elem_of_cons. left. reflexivity.
  - apply elem_of_cons. left. reflexivity.
  - destruct Hconsumed as [_ Hresult].
    + unfold keeping_opnames. rewrite !elem_of_cons, elem_of_nil.
      intros H. repeat (destruct H as [H|H]; [discriminate H|]). exact H.
    + exact (Hresult [VStr "f"; VStr "a.b.c"; VStr "g"] Sample.heap eq_refl).
Defined.

Example test_call_with_chain :
  (get_referenced_objects Sample.rt Sample.call_with_chain Sample.ctx
     Sample.heap).1
  = Ok [VStr "f"; VStr "a.b.c"; VStr "g"].
Proof. vm_compute. reflexivity. Qed.

Example test_return_chain :
  (get_referenced_objects Sample.rt Sample.return_chain Sample.ctx Sample.heap).1
  = Ok [VStr "a.b.c"].
Proof. vm_compute. reflexivity. Qed.

(** C3, as the specification words it, fails.  The body [v = a.b.c] reads
    the chain on the unknown name [a], and the walk returns no reference at
    all: the string is bound to the local [v] instead.  And when the unknown
    base is a parameter, as in [def y(a): return a.b.c], the walk returns
    the two attribute names one by one. *)
Lemma stored_chain_is_not_returned :
  dicts Sample.heap (globals Sample.ctx) !! "a" = None
  ∧ dicts Sample.heap (varnames Sample.ctx) !! "a" = None
  ∧ (get_referenced_objects Sample.rt Sample.store_chain Sample.ctx Sample.heap).1
    = Ok []
  ∧ (get_referenced_objects Sample.rt
       (Sample.code_of [Sample.ins "LOAD_FAST" "a"; Sample.ins "LOAD_ATTR" "b";
                        Sample.ins "LOAD_ATTR" "c"; Sample.ins "RETURN_VALUE" ""])
       Sample.ctx Sample.heap).1
    = Ok [VStr "b"; VStr "c"].
Proof. vm_compute. repeat split. Qed.

(** ** The context builder *)

(** C5, as the code has it.  With a non-empty tuple of free variables and a
    closure of another length, [get_code_context] raises the
    [AssertionError] of its [assert]; with no closure at all it raises the
    [TypeError] of [len(None)].  Neither is a [CodeVersioningError], and in
    neither case is a context returned from a truncated pairing. *)
Theorem mismatched_closure_fails_assertion func h :
  co_freevars (__code__ func) ≠ [] →
  (∀ cs, __closure__ func = Some cs →
         length (co_freevars (__code__ func)) ≠ length cs →
         get_code_context func h = Raise AssertionError)
  ∧ (__closure__ func = None →
     ∃ msg, get_code_context func h = Raise (TypeError msg)).
Proof.
  intros Hfree. unfold get_code_context.
  destruct (co_freevars (__code__ func)) as [|fv fvs] eqn:E; [done|]. split.
  - intros cs -> Hlen. rewrite bool_decide_eq_false_2; done.
  - intros ->. eexists. reflexivity.
Qed.

Lemma mismatched_closure_fails_assertion_witness :
  get_code_context Sample.short_closure Sample.heap = Raise AssertionError.
Proof.
  destruct (mismatched_closure_fails_assertion Sample.short_closure Sample.heap)
    as [Hlen _].
  - discriminate.
  - apply (Hlen [] eq_refl). discriminate.
Defined.

(** C5, as the specification words it, fails: for one free variable and an
    empty closure the error is an [AssertionError], not the
    [CodeVersioningError] of the domain; and for no free variable and a
    closure of one cell there is no error at all, the cell being left out
    of [cells]. *)
Lemma mismatch_is_not_a_domain_error :
  length (co_freevars (__code__ Sample.short_closure))
    ≠ length (default [] (__closure__ Sample.short_closure))
  ∧ get_code_context Sample.short_closure Sample.heap = Raise AssertionError
  ∧ is_CodeVersioningError AssertionError = false
  ∧ length (co_freevars (__code__ Sample.long_closure))
    ≠ length (default [] (__closure__ Sample.long_closure))
  ∧ ∃ ctx h', get_code_context Sample.long_closure Sample.heap = Ok (ctx, h')
              ∧ dicts h' (cells ctx) = ∅.
Proof.
  split; [discriminate|]. split; [reflexivity|]. split; [reflexivity|].
  split; [discriminate|]. do 2 eexists. split; [reflexivity|].
  simpl. reflexivity.
Qed.

(** ** Invariants of the walk *)

Lemma flush_tos_no_None fr :
  VNone ∉ refs fr → VNone ∉ refs (flush_tos fr).
Proof.
  intros Hno. unfold flush_tos. destruct (tos fr) eqn:E; simpl; try exact Hno.
  all: rewrite elem_of_app, list_elem_of_singleton; intros [H|H];
    [exact (Hno H) | discriminate H].
Qed.

Lemma flush_tos_length fr :
  (length (refs (flush_tos fr)) ≤ S (length (refs fr)))%nat.
Proof.
  unfold flush_tos. destruct (is_None (tos fr)); simpl.
  - lia.
  - rewrite length_app. simpl. lia.
Qed.

(** A step that returns appends no [None] and at most one value. *)
Lemma dispatch_refs_inv rt ctx op h fr fr' h' :
  dispatch rt ctx op h fr = Ok (fr', h') →
  (VNone ∉ refs fr → VNone ∉ refs fr')
  ∧ (length (refs fr') ≤ S (length (refs fr)))%nat.
Proof.
  intros H. dispatch_cases H.
  all: rewrite ?set_tos_refs.
  all: split; [try exact (flush_tos_no_None fr) | try exact (flush_tos_length fr)].
  all: try (intros Hno; exact Hno).
  all: try (simpl; lia).
  all: try (simpl; rewrite length_app; simpl; lia).
  all: intros Hno; simpl; rewrite elem_of_app, list_elem_of_singleton;
    intros [Hin|Hin]; [exact (Hno Hin) | try discriminate Hin].
  all: match goal with
       | Hnone : is_None (tos _) = false, Heq : VNone = tos _ |- _ =>
           rewrite <- Heq in Hnone; discriminate Hnone
       end.
Qed.

Lemma loop_refs_inv rt code ctx ops h fr fr' h' :
  loop rt code ctx ops h fr = (Ok fr', h') →
  (VNone ∉ refs fr → VNone ∉ refs fr')
  ∧ (length (refs fr') ≤ length ops + length (refs fr))%nat.
Proof.
  revert h fr. induction ops as [|op ops IH]; intros h fr; simpl.
  - intros [= <- <-]. split; [tauto | lia].
  - destruct (dispatch rt ctx op h (update_lineno op fr)) as [[fr2 h2]|e] eqn:E;
      [|discriminate].
    intros Hloop. apply IH in Hloop as [Hnone Hlen].
    apply dispatch_refs_inv in E as [Hnone1 Hlen1].
    rewrite update_lineno_refs in Hnone1, Hlen1. split.
    + intros Hno. apply Hnone, Hnone1, Hno.
    + lia.
Qed.

(** X2.  The list a walk returns never holds [None]: a value is appended
    only when it [is not None], so a reference that resolves to [None] (a
    global bound to [None], say) is not reported. *)
Theorem walk_never_returns_None rt code ctx h rs h' :
  get_referenced_objects rt code ctx h = (Ok rs, h') →
  VNone ∉ rs.
Proof.
  unfold get_referenced_objects.
  destruct (loop rt code ctx (co_instructions code) h init_frame)
    as [[fr|e0] h0] eqn:Hloop; simpl; intros [= <- <-].
  apply loop_refs_inv in Hloop as [Hnone _]. apply Hnone.
  simpl. apply not_elem_of_nil.
Qed.

Lemma walk_never_returns_None_witness : VNone ∉ [VStr "a.b.c"].
Proof.
  exact (walk_never_returns_None Sample.rt Sample.return_chain Sample.ctx
           Sample.heap [VStr "a.b.c"] Sample.heap eq_refl).
Defined.

(** X3.  Every instruction appends at most one value to [refs]: a walk
    returns no more references than the code has instructions. *)
Theorem walk_returns_at_most_one_per_instruction rt code ctx h rs h' :
  get_referenced_objects rt code ctx h = (Ok rs, h') →
  (length rs ≤ length (co_instructions code))%nat.
Proof.
  unfold get_referenced_objects.
  destruct (loop rt code ctx (co_instructions code) h init_frame)
    as [[fr|e0] h0] eqn:Hloop; simpl; intros [= <- <-].
  apply loop_refs_inv in Hloop as [_ Hlen]. simpl in Hlen. lia.
Qed.

Lemma walk_returns_at_most_one_per_instruction_witness :
  (length [VStr "log_val"] ≤ length (co_instructions Sample.call_method))%nat.
Proof.
  exact (walk_returns_at_most_one_per_instruction Sample.rt Sample.call_method
           Sample.ctx Sample.heap [VStr "log_val"] Sample.heap eq_refl).
Defined.

Lemma loop_default_only rt code ctx ops h fr :
  Forall (λ op, opname op ∉ handled_opnames) ops →
  tos fr = VNone →
  ∃ fr', loop rt code ctx ops h fr = (Ok fr', h)
         ∧ tos fr' = VNone ∧ refs fr' = refs fr.
Proof.
  intros Hops. revert fr.
  induction Hops as [|op ops Hop _ IH]; intros fr Htos; simpl.
  - eauto.
  - rewrite (dispatch_default _ _ _ _ _ Hop).
    rewrite flush_tos_empty by (by rewrite update_lineno_tos).
    destruct (IH (update_lineno op fr)) as (fr' & -> & Htos' & Hrefs').
    { by rewrite update_lineno_tos. }
    exists fr'. rewrite Hrefs', update_lineno_refs. auto.
Qed.

(** X4.  Code none of whose instructions has a rule of its own (no load of
    a global, cell or local, no import, no attribute access, no store or
    delete of a local) has no references: the walk returns the empty list
    and writes nothing. *)
Theorem walk_without_handled_instructions rt code ctx h :
  Forall (λ op, opname op ∉ handled_opnames) (co_instructions code) →
  get_referenced_objects rt code ctx h = (Ok [], h).
Proof.
  intros Hops. unfold get_referenced_objects.
  destruct (loop_default_only rt code ctx _ h init_frame Hops eq_refl)
    as (fr' & -> & _ & Hrefs).
  simpl. rewrite Hrefs. reflexivity.
Qed.

Lemma walk_without_handled_instructions_witness :
  get_referenced_objects Sample.rt
    (Sample.code_of [Sample.ins_at 23 "LOAD_CONST" "42";
                     Sample.ins "RETURN_VALUE" ""])
    Sample.ctx Sample.heap
  = (Ok [], Sample.heap).
Proof.
  apply walk_without_handled_instructions.
  repeat (apply Forall_cons; split;
          [unfold handled_opnames; rewrite !elem_of_cons, elem_of_nil;
           intros H; repeat (destruct H as [H|H]; [discriminate H|]); exact H|]).
  apply Forall_nil. exact I.
Defined.

Lemma not_load_opname op :
  opname op ∉ load_opnames →
  has_opname op ["LOAD_GLOBAL"; "LOAD_NAME"] = false
  ∧ has_opname op ["LOAD_DEREF"; "LOAD_CLOSURE"] = false
  ∧ is_opname op "IMPORT_NAME" = false
  ∧ has_opname op ["LOAD_METHOD"; "LOAD_ATTR"; "IMPORT_FROM"] = false
  ∧ is_opname op "LOAD_FAST" = false.
Proof.
  intros Hop.
  assert (Hin : ∀ names, names ⊆ load_opnames → has_opname op names = false).
  { intros names Hsub. by apply (has_opname_sub op names load_opnames). }
  assert (His : ∀ name, name ∈ load_opnames → is_opname op name = false).
  { intros name Hname. by apply (is_opname_not_in op name load_opnames). }
  repeat split.
  1,2,4: apply Hin; intros x; unfold load_opnames;
    rewrite !elem_of_cons, !elem_of_nil; tauto.
  all: apply His; unfold load_opnames; rewrite !elem_of_cons; tauto.
Qed.

(** X5.  After an instruction that is not a load, an import or an
    attribute-chain instruction, [tos] is empty, whatever it held before:
    stores, deletes and every instruction without a rule of its own all end
    with [tos = None]. *)
Theorem tos_empty_after_non_load rt ctx op h fr fr' h' :
  opname op ∉ load_opnames →
  dispatch rt ctx op h fr = Ok (fr', h') →
  tos fr' = VNone.
Proof.
  intros Hop H. destruct (not_load_opname op Hop) as (H1 & H2 & H3 & H4 & H5).
  unfold dispatch in H. rewrite H1, H2, H3, H4, H5 in H. simpl in H.
  unfold and_tos, delitem, mbind, result_bind in H.
  repeat (case_match; simplify_eq/=); try reflexivity; apply flush_tos_tos.
Qed.

Lemma tos_empty_after_non_load_witness :
  tos {| tos := VNone; lineno := None; refs := [VInt 42] |} = VNone.
Proof.
  apply (tos_empty_after_non_load Sample.rt Sample.ctx
           (Sample.ins "CALL_FUNCTION" "0") Sample.heap
           (Sample.frame_of (VInt 42)) _ Sample.heap).
  - unfold load_opnames. rewrite !elem_of_cons, elem_of_nil.
    intros H. repeat (destruct H as [H|H]; [discriminate H|]). exact H.
  - reflexivity.
Defined.

(** What a [DELETE_FAST] does, by the truth value of [tos]. *)
Lemma dispatch_DELETE_FAST rt ctx op h fr :
  opname op = "DELETE_FAST" →
  dispatch rt ctx op h fr =
    (del ← truthy rt (tos fr);
     if del : bool then
       d ← delitem (dicts h (varnames ctx)) (argval op);
       Ok (with_tos VNone fr, store (varnames ctx) d h)
     else Ok (flush_tos fr, h)).
Proof.
  intros Hop. unfold dispatch, and_tos.
  rewrite !(has_opname_eq _ _ _ Hop), !(is_opname_eq _ _ _ Hop). simpl.
  destruct (truthy rt (tos fr)) as [[|]|e]; reflexivity.
Qed.

(** X6.  A [DELETE_FAST] processed while the truth value of [tos] is
    [True] removes the name from [context.varnames] and clears [tos]; the
    value that was in [tos] is not appended to [refs].  When the name is not
    in [varnames] the [del] raises [KeyError]. *)
Theorem delete_fast_removes_or_raises rt ctx op h fr :
  opname op = "DELETE_FAST" →
  truthy rt (tos fr) = Ok true →
  (∀ v, dicts h (varnames ctx) !! argval op = Some v →
     ∃ fr' h', dispatch rt ctx op h fr = Ok (fr', h')
       ∧ dicts h' (varnames ctx) = delete (argval op) (dicts h (varnames ctx))
       ∧ dicts h' (varnames ctx) !! argval op = None
       ∧ tos fr' = VNone ∧ refs fr' = refs fr)
  ∧ (dicts h (varnames ctx) !! argval op = None →
     dispatch rt ctx op h fr = Raise (KeyError (argval op))).
Proof.
  intros Hop Htrue. rewrite (dispatch_DELETE_FAST _ _ _ _ _ Hop), Htrue.
  unfold delitem. split.
  - intros v ->. do 2 eexists. split; [reflexivity|]. simpl.
    rewrite fn_lookup_insert. split; [reflexivity|].
    split; [apply lookup_delete_eq|]. split; reflexivity.
  - intros ->. reflexivity.
Qed.

Lemma delete_fast_removes_or_raises_witness :
  dispatch Sample.rt Sample.ctx (Sample.ins "DELETE_FAST" "v") Sample.heap
           (Sample.frame_of (VInt 42))
  = Raise (KeyError "v").
Proof.
  destruct (delete_fast_removes_or_raises Sample.rt Sample.ctx
              (Sample.ins "DELETE_FAST" "v") Sample.heap
              (Sample.frame_of (VInt 42)) eq_refl eq_refl) as [_ Habsent].
  exact (Habsent eq_refl).
Defined.

(** X7.  A [DELETE_FAST] that comes directly after a [STORE_FAST] removes
    nothing, not even the name just stored: the store has left [tos] empty,
    so the condition of the delete fails.  The store after the two
    instructions is the store after the first. *)
Theorem delete_after_store_removes_nothing rt code ctx sto del h fr :
  opname sto = "STORE_FAST" →
  opname del = "DELETE_FAST" →
  truthy rt (tos fr) = Ok true →
  ∃ fr',
    loop rt code ctx [sto; del] h fr
    = (Ok fr', store (varnames ctx)
                 (<[argval sto := tos fr]> (dicts h (varnames ctx))) h)
    ∧ tos fr' = VNone ∧ refs fr' = refs fr.
Proof.
  intros Hsto Hdel Htrue. simpl.
  rewrite (dispatch_STORE_FAST _ _ _ _ _ Hsto), update_lineno_tos, Htrue. simpl.
  rewrite (dispatch_DELETE_FAST _ _ _ _ _ Hdel), update_lineno_tos. simpl.
  eexists. split; [reflexivity|]. split.
  - apply flush_tos_tos.
  - rewrite flush_tos_empty by (by rewrite update_lineno_tos).
    rewrite update_lineno_refs. simpl. apply update_lineno_refs.
Qed.

Lemma delete_after_store_removes_nothing_witness :
  ∃ fr',
    loop Sample.rt Sample.return_global Sample.ctx
         [Sample.ins "STORE_FAST" "v"; Sample.ins "DELETE_FAST" "v"]
         Sample.heap (Sample.frame_of (VInt 42))
    = (Ok fr', store (varnames Sample.ctx)
                 (<["v" := VInt 42]> (dicts Sample.heap (varnames Sample.ctx)))
                 Sample.heap)
    ∧ tos fr' = VNone ∧ refs fr' = [].
Proof.
  exact (delete_after_store_removes_nothing Sample.rt Sample.return_global
           Sample.ctx (Sample.ins "STORE_FAST" "v") (Sample.ins "DELETE_FAST" "v")
           Sample.heap (Sample.frame_of (VInt 42)) eq_refl eq_refl eq_refl).
Defined.

(** ** Attribute chains of any length *)

Lemma attribute_opname op :
  opname op ∈ attribute_opnames →
  opname op ∈ ["LOAD_ATTR"; "LOAD_METHOD"; "IMPORT_FROM"].
Proof. unfold attribute_opnames. rewrite !elem_of_cons, !elem_of_nil. tauto. Qed.

Lemma dotted_name_cons base op ops :
  dotted_name base (op :: ops) = dotted_name (base +:+ "." +:+ argval op) ops.
Proof. reflexivity. Qed.

Lemma loop_attributes_on_string rt code ctx ops h fr s :
  Forall (λ op, opname op ∈ attribute_opnames) ops →
  tos fr = VStr s →
  ∃ fr', loop rt code ctx ops h fr = (Ok fr', h)
         ∧ tos fr' = VStr (dotted_name s ops) ∧ refs fr' = refs fr.
Proof.
  intros Hops. revert fr s.
  induction Hops as [|op ops Hop _ IH]; intros fr s Htos; simpl.
  - eauto.
  - rewrite (dispatch_attribute _ _ _ _ _ (attribute_opname _ Hop)).
    rewrite update_lineno_tos, Htos.
    destruct (IH (with_tos (VStr (s +:+ "." +:+ argval op)) (update_lineno op fr))
                 (s +:+ "." +:+ argval op) eq_refl) as (fr' & -> & Htos' & Hrefs').
    exists fr'. split; [reflexivity|]. split.
    + rewrite Htos'. reflexivity.
    + rewrite Hrefs'. simpl. apply update_lineno_refs.
Qed.

(** X8.  A load of a global name that [context.globals] does not have,
    followed by any number of attribute-chain instructions, never raises and
    appends none of the names to [refs]: [tos] ends as the one string
    [name.attr1.attr2...], and [refs] has gained only the value that was in
    [tos] before the load. *)
Theorem unresolved_chain_of_any_length rt code ctx ld attrs h fr :
  opname ld ∈ ["LOAD_GLOBAL"; "LOAD_NAME"] →
  dicts h (globals ctx) !! argval ld = None →
  Forall (λ op, opname op ∈ attribute_opnames) attrs →
  ∃ fr', loop rt code ctx (ld :: attrs) h fr = (Ok fr', h)
         ∧ tos fr' = VStr (dotted_name (argval ld) attrs)
         ∧ refs fr' = refs (flush_tos fr).
Proof.
  intros Hld Habsent Hattrs. simpl.
  rewrite (dispatch_LOAD_GLOBAL_absent _ _ _ _ _ Hld Habsent).
  destruct (loop_attributes_on_string rt code ctx attrs h
              (set_tos (VStr (argval ld)) (update_lineno ld fr)) (argval ld)
              Hattrs eq_refl) as (fr' & -> & Htos' & Hrefs').
  exists fr'. split; [reflexivity|]. split; [exact Htos'|].
  rewrite Hrefs', set_tos_refs. apply flush_tos_update_lineno.
Qed.

Lemma unresolved_chain_of_any_length_witness :
  ∃ fr', loop Sample.rt Sample.return_chain Sample.ctx
              [Sample.ins "LOAD_GLOBAL" "a"; Sample.ins "LOAD_ATTR" "b";
               Sample.ins "LOAD_METHOD" "c"; Sample.ins "LOAD_ATTR" "d"]
              Sample.heap (Sample.frame_of (VInt 42))
         = (Ok fr', Sample.heap)
         ∧ tos fr' = VStr "a.b.c.d"
         ∧ refs fr' = [VInt 42].
Proof.
  apply (unresolved_chain_of_any_length Sample.rt Sample.return_chain Sample.ctx
           (Sample.ins "LOAD_GLOBAL" "a")
           [Sample.ins "LOAD_ATTR" "b"; Sample.ins "LOAD_METHOD" "c";
            Sample.ins "LOAD_ATTR" "d"]
           Sample.heap (Sample.frame_of (VInt 42))).
  - apply elem_of_cons. left. reflexivity.
  - reflexivity.
  - repeat (apply Forall_cons; split;
            [unfold attribute_opnames; rewrite !elem_of_cons; simpl; tauto|]).
    apply Forall_nil. exact I.
Defined.

Lemma loop_attributes_on_object rt code ctx attrs h fr w :
  Forall (λ op, opname op ∈ attribute_opnames) attrs →
  resolve_chain rt (tos fr) attrs = Some w →
  ∃ fr', loop rt code ctx attrs h fr = (Ok fr', h)
         ∧ tos fr' = w ∧ refs fr' = refs fr.
Proof.
  intros Hattrs. revert fr.
  induction Hattrs as [|op ops Hop _ IH]; intros fr; simpl.
  - intros [= <-]. eauto.
  - destruct (is_object (tos fr)) eqn:Hobj; [|discriminate].
    destruct (getattr rt (tos fr) (argval op)) as [v|e] eqn:Hget; [|discriminate].
    intros Hrest.
    rewrite (dispatch_attribute _ _ _ _ _ (attribute_opname _ Hop)).
    rewrite update_lineno_tos.
    assert (Hstep :
      match tos fr with
      | VNone => Ok (append_ref (VStr (argval op)) (update_lineno op fr), h)
      | VStr s =>
          Ok (with_tos (VStr (s +:+ "." +:+ argval op)) (update_lineno op fr), h)
      | o => v' ← getattr rt o (argval op);
             Ok (with_tos v' (update_lineno op fr), h)
      end = Ok (with_tos v (update_lineno op fr), h)).
    { destruct (tos fr); try discriminate Hobj; rewrite Hget; reflexivity. }
    rewrite Hstep.
    destruct (IH (with_tos v (update_lineno op fr)) Hrest)
      as (fr' & -> & Htos' & Hrefs').
    exists fr'. split; [reflexivity|]. split; [exact Htos'|].
    rewrite Hrefs'. simpl. apply update_lineno_refs.
Qed.

(** X9.  On a [tos] that holds an object, a run of attribute-chain
    instructions follows the object graph: when every [getattr] on the way
    succeeds with an object, [tos] ends as
    [getattr(... getattr(tos, n1) ..., nk)], and nothing is appended to
    [refs]. *)
Theorem resolved_chain_follows_getattr rt code ctx attrs h fr w :
  Forall (λ op, opname op ∈ attribute_opnames) attrs →
  resolve_chain rt (tos fr) attrs = Some w →
  ∃ fr', loop rt code ctx attrs h fr = (Ok fr', h)
         ∧ tos fr' = w ∧ refs fr' = refs fr.
Proof.
  intros Hattrs Hchain.
  destruct (loop_attributes_on_object rt code ctx attrs h fr w Hattrs Hchain)
    as (fr' & Hloop & Htos & Hrefs).
  exists fr'. auto.
Qed.

Lemma resolved_chain_follows_getattr_witness :
  ∃ fr', loop Sample.rt_modules Sample.return_chain Sample.ctx
              [Sample.ins "LOAD_ATTR" "managers";
               Sample.ins "LOAD_ATTR" "SyncManager";
               Sample.ins "LOAD_METHOD" "start"]
              Sample.heap (Sample.frame_of (VObj 10))
         = (Ok fr', Sample.heap)
         ∧ tos fr' = VObj 13 ∧ refs fr' = [].
Proof.
  apply (resolved_chain_follows_getattr Sample.rt_modules Sample.return_chain
           Sample.ctx
           [Sample.ins "LOAD_ATTR" "managers";
            Sample.ins "LOAD_ATTR" "SyncManager";
            Sample.ins "LOAD_METHOD" "start"]
           Sample.heap (Sample.frame_of (VObj 10)) (VObj 13)).
  - repeat (apply Forall_cons; split;
            [unfold attribute_opnames; rewrite !elem_of_cons; simpl; tauto|]).
    apply Forall_nil. exact I.
  - reflexivity.
Defined.

(** X10.  On an empty [tos], a run of attribute-chain instructions appends
    every attribute name to [refs] as a reference of its own, in order, and
    leaves [tos] empty: with no base the names are not joined. *)
Theorem attributes_without_base_are_separate rt code ctx attrs h fr :
  Forall (λ op, opname op ∈ attribute_opnames) attrs →
  tos fr = VNone →
  ∃ fr', loop rt code ctx attrs h fr = (Ok fr', h)
         ∧ tos fr' = VNone
         ∧ refs fr' = refs fr ++ map (λ op, VStr (argval op)) attrs.
Proof.
  intros Hattrs. revert fr.
  induction Hattrs as [|op ops Hop _ IH]; intros fr Htos; simpl.
  - exists fr. rewrite app_nil_r. auto.
  - rewrite (dispatch_attribute _ _ _ _ _ (attribute_opname _ Hop)).
    rewrite update_lineno_tos, Htos.
    destruct (IH (append_ref (VStr (argval op)) (update_lineno op fr)))
      as (fr' & -> & Htos' & Hrefs').
    { simpl. by rewrite update_lineno_tos. }
    exists fr'. split; [reflexivity|]. split; [exact Htos'|].
    rewrite Hrefs'. simpl. rewrite update_lineno_refs, <- app_assoc. reflexivity.
Qed.

Lemma attributes_without_base_are_separate_witness :
  ∃ fr', loop Sample.rt Sample.return_chain Sample.ctx
              [Sample.ins "LOAD_ATTR" "b"; Sample.ins "LOAD_ATTR" "c"]
              Sample.heap (Sample.frame_of VNone)
         = (Ok fr', Sample.heap)
         ∧ tos fr' = VNone
         ∧ refs fr' = [] ++ [VStr "b"; VStr "c"].
Proof.
  apply (attributes_without_base_are_separate Sample.rt Sample.return_chain
           Sample.ctx [Sample.ins "LOAD_ATTR" "b"; Sample.ins "LOAD_ATTR" "c"]
           Sample.heap (Sample.frame_of VNone)).
  - repeat (apply Forall_cons; split;
            [unfold attribute_opnames; rewrite !elem_of_cons; simpl; tauto|]).
    apply Forall_nil. exact I.
  - reflexivity.
Defined.

(** ** How the steps of a walk compose *)

(** X11.  [refs] is only ever appended to: the references gathered after
    any number of instructions are a prefix of the list the walk returns. *)
Theorem refs_only_grow rt code ctx h pre post fr1 h1 rs h' :
  co_instructions code = pre ++ post →
  loop rt code ctx pre h init_frame = (Ok fr1, h1) →
  get_referenced_objects rt code ctx h = (Ok rs, h') →
  refs fr1 `prefix_of` rs.
Proof.
  intros Hops Hpre. unfold get_referenced_objects.
  rewrite Hops, loop_app, Hpre.
  destruct (loop rt code ctx post h1 fr1) as [[fr2|e] h2] eqn:Hpost;
    simpl; intros [= <- <-].
  apply loop_refs_grow in Hpost as [more ->]. by exists more.
Qed.

Lemma refs_only_grow_witness :
  [VStr "log_val"] `prefix_of` [VStr "log_val"].
Proof.
  exact (refs_only_grow Sample.rt Sample.call_method Sample.ctx Sample.heap
           [Sample.ins_at 131 "LOAD_FAST" "my_class";
            Sample.ins "LOAD_METHOD" "log_val"]
           [Sample.ins "CALL_METHOD" "0"; Sample.ins "POP_TOP" "";
            Sample.ins "LOAD_CONST" "None"; Sample.ins "RETURN_VALUE" ""]
           {| tos := VNone; lineno := Some 131%Z; refs := [VStr "log_val"] |}
           Sample.heap [VStr "log_val"] Sample.heap eq_refl eq_refl eq_refl).
Defined.

(** X12.  What a [STORE_FAST] binds, a later [LOAD_FAST] of the same name
    puts back on top of the stack: when no instruction in between stores or
    deletes that name, the load makes [tos] the stored value again (and
    moves the value that was in [tos] meanwhile, if any, to [refs]). *)
Theorem stored_value_is_loaded_back rt code ctx sto mid ld h fr fr2 h2 :
  opname sto = "STORE_FAST" →
  truthy rt (tos fr) = Ok true →
  Forall (λ o, deletes_name (argval sto) o = false
               ∧ stores_name (argval sto) o = false) mid →
  opname ld = "LOAD_FAST" →
  argval ld = argval sto →
  loop rt code ctx (sto :: mid) h fr = (Ok fr2, h2) →
  ∃ fr3, loop rt code ctx (sto :: mid ++ [ld]) h fr = (Ok fr3, h2)
         ∧ tos fr3 = tos fr
         ∧ refs fr3 = refs (flush_tos fr2).
Proof.
  intros Hsto Htrue Hmid Hld Hname Hrun.
  assert (Hbound : dicts h2 (varnames ctx) !! argval ld = Some (tos fr)).
  { rewrite Hname. simpl in Hrun.
    rewrite (dispatch_STORE_FAST _ _ _ _ _ Hsto), update_lineno_tos, Htrue in Hrun.
    simpl in Hrun.
    pose proof (loop_keeps_binding rt code ctx mid
                  (store (varnames ctx)
                     (<[argval sto := tos fr]> (dicts h (varnames ctx))) h)
                  (with_tos VNone (update_lineno sto fr))
                  (argval sto) (tos fr) Hmid) as Hkeep.
    rewrite Hrun in Hkeep. apply Hkeep. simpl.
    rewrite fn_lookup_insert. apply lookup_insert_eq. }
  change (sto :: mid ++ [ld]) with ((sto :: mid) ++ [ld]).
  rewrite loop_app, Hrun. simpl.
  rewrite (dispatch_LOAD_FAST _ _ _ _ _ Hld), Hbound.
  eexists. split; [reflexivity|]. split; [reflexivity|].
  rewrite set_tos_refs. apply flush_tos_update_lineno.
Qed.

Lemma stored_value_is_loaded_back_witness :
  ∃ fr3, loop Sample.rt Sample.return_global Sample.ctx
              (Sample.ins "STORE_FAST" "m"
               :: [Sample.ins "LOAD_CONST" "None"] ++ [Sample.ins "LOAD_FAST" "m"])
              Sample.heap (Sample.frame_of (VObj 12))
         = (Ok fr3, store 2 {["m" := VObj 12]} Sample.heap)
         ∧ tos fr3 = VObj 12
         ∧ refs fr3 = [].
Proof.
  apply (stored_value_is_loaded_back Sample.rt Sample.return_global Sample.ctx
           (Sample.ins "STORE_FAST" "m") [Sample.ins "LOAD_CONST" "None"]
           (Sample.ins "LOAD_FAST" "m") Sample.heap (Sample.frame_of (VObj 12))
           {| tos := VNone; lineno := None; refs := [] |}
           (store 2 {["m" := VObj 12]} Sample.heap)); try reflexivity.
  repeat (apply Forall_cons; split; [split; reflexivity|]). apply Forall_nil. exact I.
Defined.

(** ** What [get_code_context] builds *)

Lemma get_code_context_unfold func h :
  get_code_context func h =
    (cells1 ← build_cells func;
     Ok ({| globals := __globals__ func;
            cells := next_loc h;
            varnames := S (next_loc h) |},
         {| next_loc := S (S (next_loc h));
            dicts := <[S (next_loc h) := seed_varnames func]>
                       (<[next_loc h := cells1]> (dicts h)) |})).
Proof. reflexivity. Qed.

Lemma get_code_context_inv func h ctx h' :
  get_code_context func h = Ok (ctx, h') →
  ∃ cells1, build_cells func = Ok cells1
    ∧ ctx = {| globals := __globals__ func; cells := next_loc h;
               varnames := S (next_loc h) |}
    ∧ dicts h' = <[S (next_loc h) := seed_varnames func]>
                   (<[next_loc h := cells1]> (dicts h))
    ∧ next_loc h' = S (S (next_loc h)).
Proof.
  rewrite get_code_context_unfold.
  destruct (build_cells func) as [cells1|e]; simpl; [|discriminate].
  intros [= <- <-]. exists cells1. auto.
Qed.

Lemma cellvars_lookup (vars : list string) (d : pydict) n :
  foldl (λ d var, <[var := VStr var]> d) d vars !! n =
    if bool_decide (n ∈ vars) then Some (VStr n) else d !! n.
Proof.
  revert d. induction vars as [|var vars IH]; intros d; simpl.
  - reflexivity.
  - rewrite IH. destruct (decide (n ∈ vars)) as [Hin|Hin].
    + rewrite !bool_decide_eq_true_2; [reflexivity | by right | done].
    + rewrite (bool_decide_eq_false_2 _ Hin).
      destruct (decide (n = var)) as [->|Hne].
      * rewrite bool_decide_eq_true_2 by left. apply lookup_insert_eq.
      * rewrite bool_decide_eq_false_2.
        -- by apply lookup_insert_ne.
        -- rewrite elem_of_cons. tauto.
Qed.

(** X13.  For a function without free variables [get_code_context] never
    raises, whatever its closure is.  The context refers to the function's
    own globals; [cells] binds every cell variable to its own name and
    nothing else; [varnames] is empty, or holds [self] alone for a bound
    method. *)
Theorem context_without_free_variables func h :
  co_freevars (__code__ func) = [] →
  ∃ ctx h', get_code_context func h = Ok (ctx, h')
    ∧ globals ctx = __globals__ func
    ∧ (∀ n, dicts h' (cells ctx) !! n =
            if bool_decide (n ∈ co_cellvars (__code__ func))
            then Some (VStr n) else None)
    ∧ dicts h' (varnames ctx) = seed_varnames func.
Proof.
  intros Hfree. rewrite get_code_context_unfold. unfold build_cells.
  rewrite Hfree. simpl. do 2 eexists. split; [reflexivity|]. simpl.
  split; [reflexivity|]. split.
  - intros n. rewrite fn_lookup_insert_ne by lia. rewrite fn_lookup_insert.
    rewrite cellvars_lookup. rewrite lookup_empty. reflexivity.
  - apply fn_lookup_insert.
Qed.

Lemma context_without_free_variables_witness :
  ∃ ctx h', get_code_context Sample.cell_reference Sample.heap = Ok (ctx, h')
    ∧ globals ctx = 0
    ∧ (∀ n, dicts h' (cells ctx) !! n =
            if bool_decide (n ∈ ["cell_val"]) then Some (VStr n) else None)
    ∧ dicts h' (varnames ctx) = ∅.
Proof.
  exact (context_without_free_variables Sample.cell_reference Sample.heap eq_refl).
Defined.

Lemma bind_freevars_filled fvs vs (d : pydict) :
  length fvs = length vs → NoDup fvs →
  ∃ d', bind_freevars fvs (map Some vs) d = Ok d'
    ∧ (∀ i fv v, fvs !! i = Some fv → vs !! i = Some v → d' !! fv = Some v)
    ∧ (∀ n, n ∉ fvs → d' !! n = d !! n).
Proof.
  revert vs d. induction fvs as [|fv fvs IH]; intros [|v vs] d Hlen Hnd;
    try discriminate Hlen; simpl.
  - exists d. split; [reflexivity|]. split; [intros i ?? [=] | done].
  - apply NoDup_cons in Hnd as [Hfresh Hnd].
    destruct (IH vs (<[fv := v]> d)) as (d' & -> & Hbound & Hother);
      [by injection Hlen | exact Hnd |].
    exists d'. split; [reflexivity|]. split.
    + intros [|i] fv' v' Hfv Hv; simpl in Hfv, Hv.
      * injection Hfv as <-. injection Hv as <-.
        rewrite (Hother _ Hfresh). apply lookup_insert_eq.
      * by eapply Hbound.
    + intros n Hn. apply not_elem_of_cons in Hn as [Hne Hn].
      rewrite (Hother _ Hn). by apply lookup_insert_ne.
Qed.

(** X14.  With as many cells as free variables, all of them filled, and
    the names of the free variables distinct, [get_code_context] returns a
    context whose [cells] binds the i-th free variable to the contents of
    the i-th cell, every cell variable that is not a free variable to its
    own name, and no other name. *)
Theorem free_variables_bound_to_cell_contents func h vs :
  __closure__ func = Some (map Some vs) →
  length (co_freevars (__code__ func)) = length vs →
  NoDup (co_freevars (__code__ func)) →
  ∃ ctx h', get_code_context func h = Ok (ctx, h')
    ∧ (∀ i fv v, co_freevars (__code__ func) !! i = Some fv → vs !! i = Some v →
         dicts h' (cells ctx) !! fv = Some v)
    ∧ (∀ n, n ∉ co_freevars (__code__ func) →
         dicts h' (cells ctx) !! n =
           if bool_decide (n ∈ co_cellvars (__code__ func))
           then Some (VStr n) else None).
Proof.
  intros Hcl Hlen Hnd.
  destruct (bind_freevars_filled (co_freevars (__code__ func)) vs
              (foldl (λ d var, <[var := VStr var]> d) ∅
                     (co_cellvars (__code__ func))) Hlen Hnd)
    as (d' & Hbind & Hbound & Hother).
  assert (Hcells : build_cells func = Ok d').
  { unfold build_cells. rewrite Hcl.
    destruct (co_freevars (__code__ func)) as [|fv fvs] eqn:E.
    - destruct vs; [|discriminate Hlen]. simpl in Hbind. exact Hbind.
    - rewrite length_map, bool_decide_eq_true_2 by exact Hlen. exact Hbind. }
  rewrite get_code_context_unfold, Hcells. simpl.
  do 2 eexists. split; [reflexivity|]. simpl.
  rewrite fn_lookup_insert_ne by lia. rewrite fn_lookup_insert. split.
  - exact Hbound.
  - intros n Hn. rewrite (Hother n Hn), cellvars_lookup, lookup_empty.
    reflexivity.
Qed.

Lemma free_variables_bound_to_cell_contents_witness :
  ∃ ctx h', get_code_context Sample.free_reference Sample.heap = Ok (ctx, h')
    ∧ (∀ i fv v, ["free_val"] !! i = Some fv → [VStr "42"] !! i = Some v →
         dicts h' (cells ctx) !! fv = Some v)
    ∧ (∀ n, n ∉ ["free_val"] →
         dicts h' (cells ctx) !! n =
           if bool_decide (n ∈ []) then Some (VStr n) else None).
Proof.
  apply (free_variables_bound_to_cell_contents Sample.free_reference
           Sample.heap [VStr "42"]).
  - reflexivity.
  - reflexivity.
  - apply NoDup_cons. split; [apply not_elem_of_nil | apply NoDup_nil; exact I].
Defined.

Lemma bind_freevars_empty_cell fvs cs (d : pydict) :
  length fvs = length cs → None ∈ cs →
  bind_freevars fvs cs d = Raise (ValueError "Cell is empty").
Proof.
  revert cs d. induction fvs as [|fv fvs IH]; intros [|c cs] d Hlen Hin;
    try discriminate Hlen.
  - by apply elem_of_nil in Hin.
  - simpl. destruct c as [v|]; simpl; [|reflexivity].
    apply IH; [by injection Hlen|].
    apply elem_of_cons in Hin as [Heq|Hin]; [discriminate Heq | exact Hin].
Qed.

(** X15.  When the closure has the right number of cells but one of them
    is empty (the variable it stands for has not been assigned yet),
    [get_code_context] raises the [ValueError] of [cell.cell_contents]; it
    returns no context. *)
Theorem empty_cell_raises_ValueError func h cs :
  co_freevars (__code__ func) ≠ [] →
  __closure__ func = Some cs →
  length (co_freevars (__code__ func)) = length cs →
  None ∈ cs →
  get_code_context func h = Raise (ValueError "Cell is empty").
Proof.
  intros Hfree Hcl Hlen Hin. rewrite get_code_context_unfold.
  unfold build_cells. rewrite Hcl.
  destruct (co_freevars (__code__ func)) as [|fv fvs] eqn:E; [done|].
  rewrite bool_decide_eq_true_2 by exact Hlen.
  rewrite (bind_freevars_empty_cell _ _ _ Hlen Hin). reflexivity.
Qed.

Lemma empty_cell_raises_ValueError_witness :
  get_code_context Sample.empty_cell_closure Sample.heap
  = Raise (ValueError "Cell is empty").
Proof.
  apply (empty_cell_raises_ValueError Sample.empty_cell_closure Sample.heap [None]).
  - discriminate.
  - reflexivity.
  - reflexivity.
  - apply elem_of_cons. left. reflexivity.
Defined.

(** X16.  [get_code_context] writes to no dict that exists already: the
    dicts in use before the call have their content after it, and the
    [cells] and [varnames] of the context are two new dicts, distinct from
    each other. *)
Theorem context_dicts_are_new func h ctx h' :
  get_code_context func h = Ok (ctx, h') →
  (∀ l, (l < next_loc h)%nat → dicts h' l = dicts h l)
  ∧ (next_loc h ≤ cells ctx < next_loc h')%nat
  ∧ (next_loc h ≤ varnames ctx < next_loc h')%nat
  ∧ cells ctx ≠ varnames ctx.
Proof.
  intros H. apply get_code_context_inv in H as (cells1 & _ & -> & Hd & Hn).
  rewrite Hd, Hn. simpl. split; [|lia].
  intros l Hl. rewrite !fn_lookup_insert_ne by lia. reflexivity.
Qed.

Lemma context_dicts_are_new_witness :
  dicts {| next_loc := 5;
           dicts := <[4 := ∅]> (<[3 := {["free_val" := VStr "42"]}]>
                                  (dicts Sample.heap)) |} 0
  = dicts Sample.heap 0.
Proof.
  apply (proj1 (context_dicts_are_new Sample.free_reference Sample.heap
                  {| globals := 0; cells := 3; varnames := 4 |}
                  {| next_loc := 5;
                     dicts := <[4 := ∅]> (<[3 := {["free_val" := VStr "42"]}]>
                                            (dicts Sample.heap)) |}
                  eq_refl)).
  simpl. lia.
Defined.

(** ** The context builder and the walker together *)

Lemma bind_freevars_bound fvs cs (d d' : pydict) n :
  bind_freevars fvs cs d = Ok d' →
  length fvs = length cs →
  n ∈ fvs ∨ is_Some (d !! n) →
  is_Some (d' !! n).
Proof.
  revert cs d. induction fvs as [|fv fvs IH]; intros [|c cs] d Hbind Hlen Hn;
    try discriminate Hlen; simpl in Hbind.
  - injection Hbind as <-. destruct Hn as [Hn|Hn]; [|exact Hn].
    by apply elem_of_nil in Hn.
  - destruct c as [v|]; simpl in Hbind; [|discriminate Hbind].
    apply (IH cs (<[fv := v]> d) Hbind); [by injection Hlen|].
    destruct Hn as [Hn|Hn].
    + apply elem_of_cons in Hn as [->|Hn]; [right | by left].
      rewrite lookup_insert_eq. eauto.
    + right. apply lookup_insert_is_Some.
      destruct (decide (fv = n)); [by left | by right].
Qed.

Lemma build_cells_bound func cells1 n :
  build_cells func = Ok cells1 →
  n ∈ co_cellvars (__code__ func) ++ co_freevars (__code__ func) →
  is_Some (cells1 !! n).
Proof.
  unfold build_cells. intros Hbuild Hn.
  assert (Hcell : n ∈ co_cellvars (__code__ func) →
            is_Some (foldl (λ (d : pydict) var, <[var := VStr var]> d) ∅
                           (co_cellvars (__code__ func)) !! n)).
  { intros Hin. rewrite cellvars_lookup, bool_decide_eq_true_2 by exact Hin.
    eauto. }
  apply elem_of_app in Hn.
  destruct (co_freevars (__code__ func)) as [|fv fvs] eqn:E.
  - injection Hbuild as <-. destruct Hn as [Hn|Hn]; [by apply Hcell|].
    by apply elem_of_nil in Hn.
  - destruct (__closure__ func) as [cs|]; [|discriminate Hbuild].
    destruct (decide (length (fv :: fvs) = length cs)) as [Hlen|Hlen].
    + rewrite bool_decide_eq_true_2 in Hbuild by exact Hlen.
      apply (bind_freevars_bound _ _ _ _ _ Hbuild Hlen).
      destruct Hn as [Hn|Hn]; [right; by apply Hcell | by left].
    + rewrite bool_decide_eq_false_2 in Hbuild by exact Hlen.
      discriminate Hbuild.
Qed.

(** X17.  In a context that [get_code_context] has built for a function,
    a read of a closure variable ([LOAD_DEREF], [LOAD_CLOSURE]) whose name
    is one of the function's cell or free variables never raises [KeyError],
    at whatever point of the walk it comes: it puts on top of the stack the
    value that [cells] was given at construction, the walk not having
    written to [cells] since. *)
Theorem closure_names_always_resolve
    rt code func h ctx h0 pre fr1 h1 op fr :
  get_code_context func h = Ok (ctx, h0) →
  loop rt code ctx pre h0 init_frame = (Ok fr1, h1) →
  opname op ∈ ["LOAD_DEREF"; "LOAD_CLOSURE"] →
  argval op ∈ co_cellvars (__code__ func) ++ co_freevars (__code__ func) →
  ∃ v, dicts h0 (cells ctx) !! argval op = Some v
       ∧ dispatch rt ctx op h1 fr = Ok (set_tos v fr, h1).
Proof.
  intros Hctx Hpre Hop Hname.
  destruct (get_code_context_inv _ _ _ _ Hctx) as (cells1 & Hbuild & -> & Hd & _).
  destruct (build_cells_bound _ _ _ Hbuild Hname) as [v Hv].
  assert (Hcells0 : dicts h0 (next_loc h) !! argval op = Some v).
  { rewrite Hd, fn_lookup_insert_ne by lia. by rewrite fn_lookup_insert. }
  assert (Hcells1 : dicts h1 (next_loc h) = dicts h0 (next_loc h)).
  { pose proof (loop_frame rt code
                  {| globals := __globals__ func; cells := next_loc h;
                     varnames := S (next_loc h) |}
                  pre h0 init_frame (next_loc h)) as Hframe.
    rewrite Hpre in Hframe. apply Hframe. simpl. lia. }
  exists v. split; [exact Hcells0|].
  unfold dispatch, has_opname.
  rewrite bool_decide_eq_false_2, (bool_decide_eq_true_2 _ Hop).
  - simpl. rewrite Hcells1. unfold getitem. rewrite Hcells0. reflexivity.
  - rewrite !elem_of_cons, elem_of_nil in Hop. rewrite !elem_of_cons, elem_of_nil.
    intros [H|[H|[]]]; destruct Hop as [Hop|[Hop|[]]]; rewrite H in Hop;
      discriminate Hop.
Qed.

Lemma closure_names_always_resolve_witness :
  ∃ v, dicts {| next_loc := 5;
                dicts := <[4 := ∅]> (<[3 := {["free_val" := VStr "42"]}]>
                                       (dicts Sample.heap)) |} 3 !! "free_val"
       = Some v
       ∧ dispatch Sample.rt {| globals := 0; cells := 3; varnames := 4 |}
           (Sample.ins "LOAD_DEREF" "free_val")
           {| next_loc := 5;
              dicts := <[4 := ∅]> (<[3 := {["free_val" := VStr "42"]}]>
                                     (dicts Sample.heap)) |}
           (Sample.frame_of VNone)
         = Ok (set_tos v (Sample.frame_of VNone),
               {| next_loc := 5;
                  dicts := <[4 := ∅]> (<[3 := {["free_val" := VStr "42"]}]>
                                         (dicts Sample.heap)) |}).
Proof.
  apply (closure_names_always_resolve Sample.rt
           (__code__ Sample.free_reference) Sample.free_reference Sample.heap
           {| globals := 0; cells := 3; varnames := 4 |}
           {| next_loc := 5;
              dicts := <[4 := ∅]> (<[3 := {["free_val" := VStr "42"]}]>
                                     (dicts Sample.heap)) |}
           [] init_frame
           {| next_loc := 5;
              dicts := <[4 := ∅]> (<[3 := {["free_val" := VStr "42"]}]>
                                     (dicts Sample.heap)) |}
           (Sample.ins "LOAD_DEREF" "free_val") (Sample.frame_of VNone)).
  - reflexivity.
  - reflexivity.
  - apply elem_of_cons. left. reflexivity.
  - apply elem_of_cons. left. reflexivity.
Defined.



Lemma bind_freevars_raise_inv fvs cs (d : pydict) e :
  bind_freevars fvs cs d = Raise e → e = ValueError "Cell is empty".
Proof.
  revert cs d. induction fvs as [|fv fvs IH]; intros [|c cs] d; simpl;
    try discriminate.
  destruct c as [v|]; simpl.
  - apply IH.
  - by intros [= <-].
Qed.

(** X19.  [get_code_context] never raises a [CodeVersioningError]: an
    exception it raises is the [AssertionError] of the length check, the
    [TypeError] of [len(None)], or the [ValueError] of an empty cell. *)
Theorem context_errors_are_not_wrapped func h e :
  get_code_context func h = Raise e →
  (e = AssertionError
   ∨ e = TypeError "object of type 'NoneType' has no len()"
   ∨ e = ValueError "Cell is empty")
  ∧ is_CodeVersioningError e = false.
Proof.
  rewrite get_code_context_unfold.
  destruct (build_cells func) as [cells1|e'] eqn:Hbuild; simpl; [discriminate|].
  intros [= <-].
  assert (Hkind : e' = AssertionError
                  ∨ e' = TypeError "object of type 'NoneType' has no len()"
                  ∨ e' = ValueError "Cell is empty").
  { unfold build_cells in Hbuild.
    destruct (co_freevars (__code__ func)) as [|fv fvs]; [discriminate Hbuild|].
    destruct (__closure__ func) as [cs|].
    - destruct (bool_decide (length (fv :: fvs) = length cs)).
      + right. right. by eapply bind_freevars_raise_inv.
      + injection Hbuild as <-. by left.
    - injection Hbuild as <-. right. by left. }
  split; [exact Hkind|].
  destruct Hkind as [->|[->| ->]]; reflexivity.
Qed.

Lemma context_errors_are_not_wrapped_witness :
  (ValueError "Cell is empty" = AssertionError
   ∨ ValueError "Cell is empty"
     = TypeError "object of type 'NoneType' has no len()"
   ∨ ValueError "Cell is empty" = ValueError "Cell is empty")
  ∧ is_CodeVersioningError (ValueError "Cell is empty") = false.
Proof.
  exact (context_errors_are_not_wrapped Sample.empty_cell_closure Sample.heap
           (ValueError "Cell is empty") eq_refl).
Defined.
